(** * Part-number converter: the table loader and the lookup merger

    A shallow embedding of [LegacyPartNumberConversionFinder.py]:
    - [load_data_file], the loader with its reader fallback and its
      [try]/[except] wrapper;
    - the body of the "Convert Part Numbers" handler, called [convert]
      here, which runs nine pandas calls over copies of the two frames.

    Python text is a [string] whose characters are code points below 256.
    A number in a cell is an integer or a float whose value is a whole
    number; an exception is its class and the text that [str(e)] gives.
    pandas frames live in a store and are reached through references, as
    the Python names reach their objects, so that in-place calls
    ([inplace=True], [df[col] = ...]) are visible as store updates. *)

From Stdlib Require Import ZArith Ascii String DecimalString.
From stdpp Require Import base tactics option list strings.

Local Open Scope string_scope.
Local Open Scope list_scope.

(** ** Python text operations *)

Module PyStr.

(** [str.isspace] on one code point below 256: TAB..CR, FS..US, SPACE,
    NEL (133) and NBSP (160). *)
Definition isspace (c : ascii) : bool :=
  let n := nat_of_ascii c in
  ((9 <=? n) && (n <=? 13) || (28 <=? n) && (n <=? 32)
   || (n =? 133) || (n =? 160))%nat.

(** [str.lstrip()] *)
Fixpoint lstrip (s : string) : string :=
  match s with
  | String c s' => if isspace c then lstrip s' else s
  | EmptyString => EmptyString
  end.

(** [str.rstrip()] *)
Fixpoint rstrip (s : string) : string :=
  match s with
  | String c s' =>
      match rstrip s' with
      | EmptyString => if isspace c then EmptyString else String c EmptyString
      | r => String c r
      end
  | EmptyString => EmptyString
  end.

(** [str.strip()] with no argument. *)
Definition strip (s : string) : string := rstrip (lstrip s).

(** [str.lower()] on one code point below 256: A..Z and the Latin-1
    capitals 192..222 (without the multiplication sign 215) move up by 32. *)
Definition lower_char (c : ascii) : ascii :=
  let n := nat_of_ascii c in
  if ((65 <=? n) && (n <=? 90)
      || (192 <=? n) && (n <=? 222) && negb (n =? 215))%nat
  then ascii_of_nat (n + 32) else c.

Fixpoint lower (s : string) : string :=
  match s with
  | String c s' => String (lower_char c) (lower s')
  | EmptyString => EmptyString
  end.

(** [s.startswith(p)] *)
Fixpoint startswith (s p : string) : bool :=
  match p, s with
  | EmptyString, _ => true
  | String a p', String b s' => Ascii.eqb a b && startswith s' p'
  | String _ _, EmptyString => false
  end.

(** [p in s] for two texts. *)
Fixpoint contains (s p : string) : bool :=
  startswith s p ||
  match s with
  | String _ s' => contains s' p
  | EmptyString => false
  end.

(** [s.endswith(p)] *)
Fixpoint endswith (s p : string) : bool :=
  String.eqb s p ||
  match s with
  | String _ s' => endswith s' p
  | EmptyString => false
  end.

(** [s.endswith((p1, p2, ...))] with a tuple of suffixes. *)
Definition endswith_any (s : string) (ps : list string) : bool :=
  existsb (endswith s) ps.

(** [str(n)] for an [int]. *)
Definition of_int (z : Z) : string := NilEmpty.string_of_int (Z.to_int z).

(** A text made of whitespace only. *)
Fixpoint blank (s : string) : bool :=
  match s with
  | String c s' => isspace c && blank s'
  | EmptyString => true
  end.

(** The last character of a text. *)
Fixpoint last_char (s : string) : option ascii :=
  match s with
  | EmptyString => None
  | String c EmptyString => Some c
  | String _ s' => last_char s'
  end.

(** [sep.join(parts)] *)
Fixpoint join (sep : string) (parts : list string) : string :=
  match parts with
  | [] => ""
  | [p] => p
  | p :: ps => p +:+ sep +:+ join sep ps
  end.

(** The double quote. *)
Definition dquote : ascii := ascii_of_nat 34.

(** [str.isprintable] on one code point below 256. *)
Definition isprintable (c : ascii) : bool :=
  let n := nat_of_ascii c in
  ((32 <=? n) && (n <? 127) || (161 <=? n) && negb (n =? 173))%nat.

Definition hex_digit (n : nat) : ascii :=
  ascii_of_nat (if (n <? 10)%nat then 48 + n else 87 + n).

(** One character of [repr(s)] between the quotes [q]. *)
Definition repr_char (q : ascii) (c : ascii) : string :=
  let n := nat_of_ascii c in
  if Ascii.eqb c q || Ascii.eqb c "\"%char then String "\"%char (String c "")
  else if (n =? 9)%nat then "\t"
  else if (n =? 10)%nat then "\n"
  else if (n =? 13)%nat then "\r"
  else if isprintable c then String c ""
  else String "\"%char (String "x"%char
         (String (hex_digit (n / 16)) (String (hex_digit (n mod 16)) ""))).

Fixpoint repr_body (q : ascii) (s : string) : string :=
  match s with
  | String c s' => repr_char q c +:+ repr_body q s'
  | EmptyString => EmptyString
  end.

(** [repr(s)] for a text: between single quotes, or between double quotes
    when the text holds a single quote and no double quote. *)
Definition repr (s : string) : string :=
  let q := if contains s "'" && negb (contains s (String dquote ""))
           then dquote else "'"%char in
  String q (repr_body q s) +:+ String q "".

(** [str.replace(old, new)] for one character [old]. *)
Fixpoint replace_char (old : ascii) (new : string) (s : string) : string :=
  match s with
  | String c s' =>
      (if Ascii.eqb c old then new else String c "") +:+ replace_char old new s'
  | EmptyString => EmptyString
  end.

End PyStr.

(** ** Python floats with a whole value *)

Module PyFloat.

(** [float(z)] for an [int]: the float64 nearest to [z], ties to the even
    significand.  The value is a whole number again. *)
Definition of_int (z : Z) : Z :=
  let a := Z.abs z in
  let sh := (Z.log2 a + 1 - 53)%Z in
  if (sh <=? 0)%Z then z
  else
    let q := Z.shiftr a sh in
    let rest := (a - Z.shiftl q sh)%Z in
    let half := Z.shiftl 1 (sh - 1) in
    let q' := if (half <? rest)%Z || ((rest =? half)%Z && Z.odd q)
              then (q + 1)%Z else q in
    (Z.sgn z * Z.shiftl q' sh)%Z.

(** The decimal with [d] significant digits that reads back as the float
    [a], the nearest to [a] if there are two; [e] is the decimal exponent
    of [a]. *)
Definition candidate (a e d : Z) : option Z :=
  let p := (10 ^ (e + 1 - d))%Z in
  let lo := (a / p * p)%Z in
  let hi := (lo + p)%Z in
  match (of_int lo =? a)%Z, (of_int hi =? a)%Z with
  | true, true =>
      Some (if (a - lo <? hi - a)%Z then lo
            else if (hi - a <? a - lo)%Z then hi
            else if Z.even (lo / p) then lo else hi)
  | true, false => Some lo
  | false, true => Some hi
  | false, false => None
  end.

(** The shortest decimal that reads back as [a], trying [d], [d + 1], ...
    significant digits. *)
Fixpoint shortest (fuel : nat) (a e d : Z) : Z :=
  match fuel with
  | O => a
  | S fuel' =>
      match candidate a e d with
      | Some c => c
      | None => shortest fuel' a e (d + 1)%Z
      end
  end.

Fixpoint strip_zeros (s : string) : string :=
  match s with
  | String c s' =>
      match strip_zeros s' with
      | EmptyString => if Ascii.eqb c "0" then EmptyString else String c EmptyString
      | r => String c r
      end
  | EmptyString => EmptyString
  end.

(** [repr(x)], which is also [str(x)], for the float [x] whose value is the
    whole number [a]: the digits and ".0" below 1e16, the shortest
    scientific form from there on. *)
Definition repr (a : Z) : string :=
  if (Z.abs a <? 10 ^ 16)%Z then PyStr.of_int a +:+ ".0"
  else
    let m := Z.abs a in
    let e := (Z.of_nat (String.length (PyStr.of_int m)) - 1)%Z in
    let c := PyStr.of_int (shortest 17 m e 1) in
    let exponent := PyStr.of_int (Z.of_nat (String.length c) - 1) in
    (if (a <? 0)%Z then "-" else "")
    +:+ match strip_zeros c with
        | String d EmptyString => String d EmptyString
        | String d ds => String d ("." +:+ ds)
        | EmptyString => "0"
        end
    +:+ "e+" +:+ exponent.

End PyFloat.

(** ** Outcomes of a call, and a state monad over them *)

(** The exceptions the program can meet: the class, and the text that
    [str(e)] gives.  All are subclasses of [Exception].  [OtherError] stands
    for any other exception class that a file reader raises (for instance
    [BadZipFile]). *)
Inductive exn :=
| KeyError (text : string)
| AttributeError (text : string)
| ValueError (text : string)
| MergeError (text : string)
| OtherError (text : string).

(** [str(e)] *)
Definition exn_str (e : exn) : string :=
  match e with
  | KeyError text | AttributeError text | ValueError text | MergeError text
  | OtherError text => text
  end.

(** [KeyError(key)] for a text [key]: a [KeyError] with one argument
    prints the [repr] of the argument. *)
Definition key_error (key : string) : exn := KeyError (PyStr.repr key).

(** A call returns, raises, or leaves the part of pandas that is embedded
    here ([Undefined]: a reference to no frame, or an in-place fill through
    a selection by a duplicated label, whose effect on the parent frame
    depends on the pandas version and on the order of the labels). *)
Inductive outcome (A : Type) :=
| Ok (a : A)
| Raise (e : exn)
| Undefined.
Arguments Ok {A} a.
Arguments Raise {A} e.
Arguments Undefined {A}.

#[global] Instance outcome_ret : MRet outcome := λ A, @Ok A.
#[global] Instance outcome_bind : MBind outcome := λ A B k o,
  match o with
  | Ok a => k a
  | Raise e => Raise e
  | Undefined => Undefined
  end.

(** Statements run over a state [Σ]; the state survives a raise. *)
Definition M (Σ A : Type) : Type := Σ → outcome A * Σ.

Definition ret {Σ A} (a : A) : M Σ A := λ σ, (Ok a, σ).

Definition bind {Σ A B} (m : M Σ A) (k : A → M Σ B) : M Σ B :=
  λ σ, match m σ with
       | (Ok a, σ') => k a σ'
       | (Raise e, σ') => (Raise e, σ')
       | (Undefined, σ') => (Undefined, σ')
       end.

Definition raise {Σ A} (e : exn) : M Σ A := λ σ, (Raise e, σ).

(** Lifts a pure partial call. *)
Definition lift {Σ A} (o : outcome A) : M Σ A := λ σ, (o, σ).

(** [try: body except Exception as e: handler(e)] *)
Definition try_except {Σ A} (body : M Σ A) (handler : exn → M Σ A) : M Σ A :=
  λ σ, match body σ with
       | (Raise e, σ') => handler e σ'
       | r => r
       end.

#[global] Instance M_ret {Σ} : MRet (M Σ) := λ A, @ret Σ A.
#[global] Instance M_bind {Σ} : MBind (M Σ) := λ A B k m, @bind Σ A B m k.

(** ** Cells and frames *)

(** A cell holds the element as pandas hands it out:
    - [CText]: a [str], in an object column;
    - [CInt]: an integer of an integer column (int64);
    - [CPyInt]: a Python [int] in an object column, as a spreadsheet column
      that mixes numbers and text is read;
    - [CFloat z]: the float whose value is the whole number [z], as in a
      column of whole numbers with a blank cell, which is read as float64
      (42 is then 42.0); [z] is a number that a float64 holds, so any whole
      number up to 2^53 and the values of [PyFloat.of_int] beyond; a float
      with a fractional part is not represented;
    - [CMissing]: the missing marker NaN. *)
Inductive cell :=
| CText (s : string)
| CInt (z : Z)
| CPyInt (z : Z)
| CFloat (z : Z)
| CMissing.

#[global] Instance cell_eq_dec : EqDecision cell.
Proof. solve_decision. Defined.

(** A frame: the column labels in order, and the rows in order, each row
    holding one cell per column. *)
Record DataFrame := mkDataFrame {
  columns : list string;
  rows : list (list cell)
}.

Definition cell_at (i : nat) (r : list cell) : cell := default CMissing (r !! i).

(** [len(df)] *)
Definition nrows (df : DataFrame) : nat := length (rows df).

(** The table invariant of the data model: labels are unique and every
    row has one cell per column. *)
Definition wf (df : DataFrame) : Prop :=
  NoDup (columns df) ∧ Forall (λ r, length r = length (columns df)) (rows df).

#[global] Instance wf_dec df : Decision (wf df).
Proof. unfold wf. apply _. Defined.

(** The pandas calls of the handler, on frames as values.  They follow
    pandas 1.x and 2.x without copy-on-write: [astype(str)] turns NaN into
    the text "nan", and an in-place call on the Series that [df[label]]
    selects reaches [df]. *)
Module Pandas.

(** A label as an [Index] prints it: between single quotes, with tab,
    carriage return and line feed escaped. *)
Definition pprint_label (label : string) : string :=
  "'" +:+ PyStr.replace_char (ascii_of_nat 10) "\n"
            (PyStr.replace_char (ascii_of_nat 13) "\r"
               (PyStr.replace_char (ascii_of_nat 9) "\t" label)) +:+ "'".

(** [repr(Index(labels))] for text labels; one or two labels, as the
    handler has them, stand on one line. *)
Definition index_repr (labels : list string) : string :=
  "Index([" +:+ PyStr.join ", " (pprint_label <$> labels)
  +:+ "], dtype='object')".

(** [repr(labels)] for a list of texts. *)
Definition list_repr (labels : list string) : string :=
  "[" +:+ PyStr.join ", " (PyStr.repr <$> labels) +:+ "]".

(** [Index.unique()]: each label once, in the order of first occurrence. *)
Fixpoint unique (seen labels : list string) : list string :=
  match labels with
  | [] => []
  | l :: ls =>
      if decide (l ∈ seen) then unique seen ls else l :: unique (l :: seen) ls
  end.

(** All positions of a label ([Index.get_indexer_for]). *)
Fixpoint get_locs (label : string) (cols : list string) : list nat :=
  match cols with
  | [] => []
  | c :: cs =>
      (if decide (c = label) then [0%nat] else []) ++ (S <$> get_locs label cs)
  end.

(** What [df[label]] is: nothing, one column (a Series), or a sub-frame
    when the label is duplicated. *)
Inductive selection :=
| NoSuchLabel
| OneColumn (i : nat)
| SubFrame (locs : list nat).

Definition select (label : string) (cols : list string) : selection :=
  match get_locs label cols with
  | [] => NoSuchLabel
  | [i] => OneColumn i
  | locs => SubFrame locs
  end.

(** The values of the column at position [i]. *)
Definition column_at (i : nat) (rs : list (list cell)) : list cell :=
  cell_at i <$> rs.

(** [df[[l1, l2, ...]]]: a new frame with the named columns, in the order
    asked.  When labels are absent there is one [KeyError] for the list:
    its message holds the whole list when every label is absent, and the
    absent labels otherwise. *)
Definition getitem_list (labels : list string) (df : DataFrame)
  : outcome DataFrame :=
  match filter (λ l, l ∉ columns df) labels with
  | [] =>
      let locs := labels ≫= (λ l, get_locs l (columns df)) in
      Ok {| columns := labels ≫= (λ l, (λ _, l) <$> get_locs l (columns df));
            rows := (λ r, (λ i, cell_at i r) <$> locs) <$> rows df |}
  | missing =>
      if decide (missing = labels)
      then Raise (key_error ("None of [" +:+ index_repr labels
                             +:+ "] are in the [columns]"))
      else Raise (key_error (list_repr (unique [] missing) +:+ " not in index"))
  end.

(** [astype(str)] on one element: [str(x)]. *)
Definition astype_str (c : cell) : cell :=
  match c with
  | CText s => CText s
  | CInt z | CPyInt z => CText (PyStr.of_int z)
  | CFloat z => CText (PyFloat.repr z)
  | CMissing => CText "nan"
  end.

(** [.str.strip()] on one element; an element that is not text gives NaN. *)
Definition str_strip (c : cell) : cell :=
  match c with
  | CText s => CText (PyStr.strip s)
  | _ => CMissing
  end.

(** [df[label].astype(str).str]: the column as a Series of text.  A
    duplicated label selects a frame, which has no [.str]. *)
Definition getitem_astype_str (label : string) (df : DataFrame)
  : outcome (list cell) :=
  match select label (columns df) with
  | NoSuchLabel => Raise (key_error label)
  | OneColumn i => Ok (astype_str <$> column_at i (rows df))
  | SubFrame _ =>
      Raise (AttributeError "'DataFrame' object has no attribute 'str'")
  end.

(** [df[label] = values]: replaces the cells of every column with that
    label, row by row; a new label is appended as a last column. *)
Definition setitem (label : string) (values : list cell) (df : DataFrame)
  : DataFrame :=
  match get_locs label (columns df) with
  | [] => {| columns := columns df ++ [label];
             rows := zip_with (λ r v, r ++ [v]) (rows df) values |}
  | locs => {| columns := columns df;
               rows := zip_with (λ r v, foldr (λ i r', <[i:=v]> r') r locs)
                         (rows df) values |}
  end.

(** [df[label] = df[label].astype(str).str.strip()]: the right-hand side
    is evaluated first, then the column is replaced. *)
Definition normalize_column (label : string) (df : DataFrame)
  : outcome DataFrame :=
  s ← getitem_astype_str label df;
  Ok (setitem label (str_strip <$> s) df).

(** Rows kept by [keep='first']: a row stays when its key was not seen in
    an earlier row. *)
Fixpoint keep_first {K} `{EqDecision K} (key : list cell → K) (seen : list K)
    (rs : list (list cell)) : list (list cell) :=
  match rs with
  | [] => []
  | r :: rs' =>
      if decide (key r ∈ seen) then keep_first key seen rs'
      else r :: keep_first key (key r :: seen) rs'
  end.

(** [df.drop_duplicates(subset=[label])]; the [KeyError] for an absent
    label holds an [Index]. *)
Definition drop_duplicates (label : string) (df : DataFrame)
  : outcome DataFrame :=
  match get_locs label (columns df) with
  | [] => Raise (KeyError (index_repr [label]))
  | locs =>
      Ok {| columns := columns df;
            rows := keep_first (λ r, (λ i, cell_at i r) <$> locs) [] (rows df) |}
  end.

(** The cells of a row under the labels that pass [keep]. *)
Definition filter_row (keep : string → bool) (cols : list string)
    (r : list cell) : list cell :=
  snd <$> filter (λ p, keep p.1 = true) (zip cols r).

(** The frame without the columns labelled [label] (no check). *)
Definition without_label (label : string) (df : DataFrame) : DataFrame :=
  {| columns := filter (λ c, c ≠ label) (columns df);
     rows := filter_row (λ c, bool_decide (c ≠ label)) (columns df) <$> rows df |}.

(** [df.drop(columns=[label])]: every column with that label goes;
    [KeyError] when there is none. *)
Definition drop (label : string) (df : DataFrame) : outcome DataFrame :=
  if decide (label ∈ columns df) then Ok (without_label label df)
  else Raise (key_error (list_repr [label] +:+ " not found in axis")).

(** [df.rename(columns={old: new})]: absent labels are ignored. *)
Definition rename (old new : string) (df : DataFrame) : DataFrame :=
  {| columns := (λ c, if decide (c = old) then new else c) <$> columns df;
     rows := rows df |}.

(** [fillna(value)] on one cell. *)
Definition fillna (value : cell) (c : cell) : cell :=
  match c with
  | CMissing => value
  | _ => c
  end.

(** [df[label].fillna(value, inplace=True)]: the selected Series is
    filled and the frame sees it.  A duplicated label selects a sub-frame,
    and what the fill of it does to [df] is left open. *)
Definition getitem_fillna (label : string) (value : cell) (df : DataFrame)
  : outcome DataFrame :=
  match select label (columns df) with
  | NoSuchLabel => Raise (key_error label)
  | OneColumn i =>
      Ok {| columns := columns df;
            rows := alter (fillna value) i <$> rows df |}
  | SubFrame _ => Undefined
  end.

(** The labels of [new] that repeat an earlier one although the label of
    [orig] at that position did not. *)
Fixpoint suffix_dups (seen_o seen_n orig new : list string) : list string :=
  match orig, new with
  | o :: os, n :: ns =>
      (if bool_decide (n ∈ seen_n) && negb (bool_decide (o ∈ seen_o))
       then [n] else [])
      ++ suffix_dups (o :: seen_o) (n :: seen_n) os ns
  | _, _ => []
  end.

(** The labels of a merge result, with the default suffixes.  The message
    of the [MergeError] prints a set: with more than one label in it, the
    order in which Python prints them is not fixed here. *)
Definition items_overlap_with_suffix (left right : list string)
  : outcome (list string * list string) :=
  match filter (λ c, c ∈ right) left with
  | [] => Ok (left, right)
  | to_rename =>
      let renamer sfx := λ c : string,
        if decide (c ∈ to_rename) then c +:+ sfx else c in
      let llabels := renamer "_x" <$> left in
      let rlabels := renamer "_y" <$> right in
      match suffix_dups [] [] left llabels ++ suffix_dups [] [] right rlabels with
      | [] => Ok (llabels, rlabels)
      | dups =>
          Raise (MergeError
                   ("Passing 'suffixes' which cause duplicate columns {"
                    +:+ PyStr.join ", " (PyStr.repr <$> unique [] dups)
                    +:+ "} is not allowed."))
      end
  end.

(** What a cell of the right frame becomes when the join leaves a left row
    without a match: an integer column cannot hold the missing marker, so
    it turns into a float column. *)
Definition upcast (c : cell) : cell :=
  match c with
  | CInt z => CFloat (PyFloat.of_int z)
  | _ => c
  end.

(** The rows of a left join: each left row in order, once per matching
    right row in the right frame's order, or once with missing cells. *)
Definition left_join_rows (lkeys rkeys : list cell)
    (lrows rrows : list (list cell)) (width : nat) : list (list cell) :=
  zip lkeys lrows ≫= (λ l,
    match filter (λ p, p.1 = l.1) (zip rkeys rrows) with
    | [] => [l.2 ++ replicate width CMissing]
    | matches => (λ p, l.2 ++ p.2) <$> matches
    end).

Definition not_unique (label : string) : exn :=
  ValueError ("The column label '" +:+ label +:+ "' is not unique.").

(** [pd.merge(left, right, left_on=.., right_on=.., how='left')] on one
    key label per side.  When both keys have the same label one copy is
    kept: the right one goes, or the left one if the left frame is empty
    (so pandas up to 2.1; from 2.2 on the right one goes in both cases,
    which moves the key label of a result without rows and nothing else).
    When a left key has no match, the integer columns of the right frame
    come out as float columns. *)
Definition merge (left right : DataFrame) (left_on right_on : string)
  : outcome DataFrame :=
  match select right_on (columns right), select left_on (columns left) with
  | NoSuchLabel, _ => Raise (key_error right_on)
  | SubFrame _, _ => Raise (not_unique right_on)
  | _, NoSuchLabel => Raise (key_error left_on)
  | _, SubFrame _ => Raise (not_unique left_on)
  | OneColumn j, OneColumn i =>
      let lkeys := column_at i (rows left) in
      let rkeys := column_at j (rows right) in
      let '(l, r) :=
        if decide (left_on = right_on) then
          if decide (0 < nrows left)%nat then (left, without_label right_on right)
          else (without_label left_on left, right)
        else (left, right) in
      let rrows :=
        if forallb (λ k, bool_decide (k ∈ rkeys)) lkeys then rows r
        else (λ x : list cell, upcast <$> x) <$> rows r in
      match items_overlap_with_suffix (columns l) (columns r) with
      | Ok (llabels, rlabels) =>
          Ok {| columns := llabels ++ rlabels;
                rows := left_join_rows lkeys rkeys (rows l) rrows
                          (length (columns r)) |}
      | Raise e => Raise e
      | Undefined => Undefined
      end
  end.

End Pandas.

(** ** The store of frames *)

(** A Python name bound to a frame is a reference into the store. *)
Abbreviation ref := nat (only parsing).
Abbreviation store := (list DataFrame) (only parsing).

Definition deref (r : ref) : M store DataFrame :=
  λ σ, (from_option Ok Undefined (σ !! r), σ).

Definition alloc (df : DataFrame) : M store ref :=
  λ σ, (Ok (length σ), σ ++ [df]).

Definition assign (r : ref) (df : DataFrame) : M store unit :=
  λ σ, (Ok tt, <[r:=df]> σ).

(** [x.copy()] *)
Definition df_copy (r : ref) : M store ref :=
  df ← deref r; alloc df.

(** A call with [inplace=True] on the frame behind [r]. *)
Definition inplace (r : ref) (f : DataFrame → outcome DataFrame) : M store unit :=
  df ← deref r; df' ← lift (f df); assign r df'.

(** ** The lookup merger *)

Definition new_col_name : string := "Converted Part Number".
Definition NOT_FOUND : string := "--- NOT FOUND ---".

(** The body of the "Convert Part Numbers" handler (source lines 134 to
    148), statement by statement.  [user_df] and [master_df] are the loaded
    frames; the three labels are the selections of the form.  The value is
    the reference [result_df]. *)
Definition convert (user_df master_df : ref)
    (user_e_col master_e_col new_part_col : string) : M store ref :=
  user_df_copy ← df_copy user_df;
  master_df_copy ← df_copy master_df;
  projected ← (df ← deref master_df_copy;
               sel ← lift (Pandas.getitem_list [master_e_col; new_part_col] df);
               alloc sel);
  mapping_df ← df_copy projected;
  inplace mapping_df (Pandas.normalize_column master_e_col);;
  inplace user_df_copy (Pandas.normalize_column user_e_col);;
  inplace mapping_df (Pandas.drop_duplicates master_e_col);;
  result_df ← (l ← deref user_df_copy;
               r ← deref mapping_df;
               res ← lift (Pandas.merge l r user_e_col master_e_col);
               alloc res);
  inplace result_df (λ df, Ok (Pandas.rename new_part_col new_col_name df));;
  (if decide (user_e_col ≠ master_e_col)
   then inplace result_df (Pandas.drop master_e_col)
   else mret tt);;
  inplace result_df (Pandas.getitem_fillna new_col_name (CText NOT_FOUND));;
  mret result_df.

(** The frame that [result_df] names at the end, as a function of the two
    input frames: the same calls without the store. *)
Definition convert_frames (user master : DataFrame)
    (user_e_col master_e_col new_part_col : string) : outcome DataFrame :=
  sel ← Pandas.getitem_list [master_e_col; new_part_col] master;
  mapping ← Pandas.normalize_column master_e_col sel;
  user' ← Pandas.normalize_column user_e_col user;
  mapping' ← Pandas.drop_duplicates master_e_col mapping;
  res ← Pandas.merge user' mapping' user_e_col master_e_col;
  res' ← (if decide (user_e_col ≠ master_e_col)
          then Pandas.drop master_e_col (Pandas.rename new_part_col new_col_name res)
          else Ok (Pandas.rename new_part_col new_col_name res));
  Pandas.getitem_fillna new_col_name (CText NOT_FOUND) res'.

(** ** The table loader *)

(** The pandas readers the loader calls, by engine. *)
Inductive engine :=
| PythonCsv   (* read_csv(..., sep=None, engine='python', on_bad_lines='skip') *)
| Pyxlsb      (* read_excel(..., engine='pyxlsb') *)
| Openpyxl    (* read_excel(..., engine='openpyxl') *)
| Xlrd.       (* read_excel(..., engine='xlrd') *)

#[global] Instance engine_eq_dec : EqDecision engine.
Proof. solve_decision. Defined.

(** The uploaded file: its name and its bytes.  The read position is
    part of the session. *)
Record UploadedFile := mkUploadedFile {
  name : string;
  data : string
}.

(** What the loader does to the outside, in order. *)
Inductive event :=
| Read (eng : engine) (from : nat) (header : Z)
| Seek (to : nat)
| StError (msg : string)
| StInfo (msg : string).

#[global] Instance event_eq_dec : EqDecision event.
Proof. solve_decision. Defined.

Record session := mkSession {
  position : nat;
  log : list event
}.

Definition header_hint : string :=
  "Please ensure the 'Header is on which row?' value is correct. The selected row must contain the column names.".

Section Loader.

(** A reader takes the bytes, the position it starts from and the
    [header] argument; it returns a frame or raises, and leaves the
    stream at a new position. *)
Variable reader : engine → string → nat → Z → (exn + DataFrame) * nat.

Definition read_with (eng : engine) (f : UploadedFile) (header : Z)
  : M session DataFrame :=
  λ s, let '(res, pos) := reader eng (data f) (position s) header in
       (match res with inl e => Raise e | inr df => Ok df end,
        {| position := pos; log := log s ++ [Read eng (position s) header] |}).

(** [uploaded_file.seek(n)] *)
Definition seek (n : nat) : M session unit :=
  λ s, (Ok tt, {| position := n; log := log s ++ [Seek n] |}).

Definition st_error (msg : string) : M session unit :=
  λ s, (Ok tt, {| position := position s; log := log s ++ [StError msg] |}).

Definition st_info (msg : string) : M session unit :=
  λ s, (Ok tt, {| position := position s; log := log s ++ [StInfo msg] |}).

(** The message of [st.error] in the handler. *)
Definition failed_to_read (f : UploadedFile) (e : exn) : string :=
  "Failed to read file '" +:+ name f +:+ "'. Error: " +:+ exn_str e.

(** The test that sends a spreadsheet to the second reader. *)
Definition retry_with_xlrd (file_name_lower : string) (e : exn) : bool :=
  PyStr.contains (PyStr.lower (exn_str e)) "zip file"
  || PyStr.endswith file_name_lower ".xls".

(** [load_data_file(uploaded_file, header_row)]; [None] is Python's
    [None], also when no branch of the [if] returns. *)
Definition load_data_file (uploaded_file : UploadedFile) (header_row : Z)
  : M session (option DataFrame) :=
  let skiprows := (header_row - 1)%Z in
  let file_name_lower := PyStr.lower (name uploaded_file) in
  try_except
    (if PyStr.endswith_any file_name_lower [".csv"; ".tsv"; ".txt"] then
       df ← read_with PythonCsv uploaded_file skiprows; mret (Some df)
     else if PyStr.endswith file_name_lower ".xlsb" then
       df ← read_with Pyxlsb uploaded_file skiprows; mret (Some df)
     else if PyStr.endswith_any file_name_lower [".xlsx"; ".xlsm"; ".xls"] then
       try_except
         (df ← read_with Openpyxl uploaded_file skiprows; mret (Some df))
         (λ e, if retry_with_xlrd file_name_lower e then
                 seek 0;;
                 df ← read_with Xlrd uploaded_file skiprows; mret (Some df)
               else raise e)
     else mret None)
    (λ e, st_error (failed_to_read uploaded_file e);;
          st_info header_hint;;
          mret None).

End Loader.

(** ** Worked inputs *)

Definition ex_master : DataFrame :=
  {| columns := ["E"; "New"];
     rows := [[CText "A1"; CText "X1"]; [CText "A1"; CText "X2"];
              [CText "B2"; CText "Y1"]] |}.

Definition ex_data : DataFrame :=
  {| columns := ["Part"]; rows := [[CText "a1 "]; [CText "C3"]] |}.

Definition ex_data_upper : DataFrame :=
  {| columns := ["Part"]; rows := [[CText "A1 "]; [CText "C3"]] |}.

(** A data table whose key column has the label of the master's. *)
Definition ex_data_same : DataFrame :=
  {| columns := ["E"; "Qty"]; rows := [[CInt 42; CInt 3]] |}.

(** A master with text and number keys and a missing value. *)
Definition ex_master_mixed : DataFrame :=
  {| columns := ["E"; "New"];
     rows := [[CText " 42 "; CText "N42"]; [CText "B2"; CMissing];
              [CText "B2"; CText "Y1"]] |}.

(** A data table with a key that the mixed master holds twice. *)
Definition ex_data_b2 : DataFrame :=
  {| columns := ["Part"]; rows := [[CText "B2"]; [CText "zz"]] |}.

(** A reader for examples: the primary spreadsheet reader rejects a
    payload that does not start with "PK", the others accept anything and
    give [ex_data]. *)
Definition ex_reader (eng : engine) (bytes : string) (pos : nat) (header : Z)
  : (exn + DataFrame) * nat :=
  match eng with
  | Openpyxl =>
      if PyStr.startswith bytes "PK" then (inr ex_data, String.length bytes)
      else (inl (OtherError "File is not a zip file"), 4%nat)
  | _ => (inr ex_data, String.length bytes)
  end.

(** Data tables with a label that collides with the master's columns or
    with the output label. *)
Definition ex_data_value_label : DataFrame :=
  {| columns := ["Part"; "New"]; rows := [[CText "A1"; CText "old"]] |}.

Definition ex_data_key_label : DataFrame :=
  {| columns := ["Part"; "E"]; rows := [[CText "A1"; CText "old"]] |}.

Definition ex_data_output_label : DataFrame :=
  {| columns := ["Part"; "Converted Part Number"];
     rows := [[CText "A1"; CText "old"]] |}.

(** A data table that has both the master's value label and the output
    label. *)
Definition ex_data_collide : DataFrame :=
  {| columns := ["Part"; "New"; "Converted Part Number"];
     rows := [[CText "A1"; CText "n1"; CMissing];
              [CText "C3"; CText "n2"; CText "old"];
              [CText "B2"; CText "n3"; CText "kept"]] |}.

(** A data table whose keys are whole numbers next to a blank cell: a
    float column. *)
Definition ex_data_float : DataFrame :=
  {| columns := ["Part"]; rows := [[CFloat 42]; [CMissing]] |}.

(** A master whose values are integers, one of them beyond 2^53. *)
Definition ex_master_int : DataFrame :=
  {| columns := ["E"; "New"];
     rows := [[CText "A1"; CInt 9007199254740993]; [CText "B2"; CInt 7]] |}.

(** ** The merger, row by row *)

(** The normalized key of a cell: [astype(str)] then [.str.strip()],
    the one expression the handler applies to both key columns. *)
Definition normalize_key (c : cell) : cell :=
  Pandas.str_strip (Pandas.astype_str c).

(** The first position of a label ([Index.get_loc] on unique labels). *)
Definition get_loc (label : string) (cols : list string) : nat :=
  default 0%nat (head (Pandas.get_locs label cols)).

(** The first master row, in the master's own order, whose normalized key
    is [k]; [ik] is the position of the master's key column. *)
Definition first_match (k : cell) (ik : nat) (mrows : list (list cell))
  : option (list cell) :=
  head (filter (λ r, normalize_key (cell_at ik r) = k) mrows).

(** Some data row has a normalized key that no master row has.  The
    lookup then leaves a missing cell, and the values of an integer column
    come out as floats. *)
Definition unmatched (iu ik : nat) (urows mrows : list (list cell)) : bool :=
  existsb (λ r, bool_decide
                  (first_match (normalize_key (cell_at iu r)) ik mrows = None))
    urows.

(** A value cell of the master as the lookup hands it on; [up] says that
    some data row is unmatched. *)
Definition merged_value (up : bool) (c : cell) : cell :=
  if up then Pandas.upcast c else c.

(** The cell of the output column for the key [k]: the value cell of the
    first matching master row as the lookup hands it on, the sentinel when
    there is none or when that cell is missing. *)
Definition output_cell (up : bool) (k : cell) (ik iv : nat)
    (mrows : list (list cell)) : cell :=
  Pandas.fillna (CText NOT_FOUND)
    (from_option (λ x, merged_value up (cell_at iv x)) CMissing
       (first_match k ik mrows)).

(** A data row as it stands in the result. *)
Definition converted_row (up : bool) (iu ik iv : nat)
    (mrows : list (list cell)) (r : list cell) : list cell :=
  <[iu := normalize_key (cell_at iu r)]> r
  ++ [output_cell up (normalize_key (cell_at iu r)) ik iv mrows].

(** The values of a column by its label. *)
Definition column (label : string) (df : DataFrame) : list cell :=
  Pandas.column_at (get_loc label (columns df)) (rows df).

(** The inputs on which the handler runs to its end and fills the column
    it has looked up: two well-formed tables, selections that exist, two
    different master columns, and no label of the data table that collides
    with the master's selected columns or with the output label.  The
    handler checks none of this: a colliding label goes through the
    suffixes of the merge. *)
Definition valid_inputs (user master : DataFrame)
    (user_e_col master_e_col new_part_col : string) : Prop :=
  wf user ∧ wf master
  ∧ user_e_col ∈ columns user
  ∧ master_e_col ∈ columns master
  ∧ new_part_col ∈ columns master
  ∧ master_e_col ≠ new_part_col
  ∧ (new_part_col ∉ columns user)
  ∧ (master_e_col = user_e_col ∨ master_e_col ∉ columns user)
  ∧ (new_col_name ∉ columns user)
  ∧ master_e_col ≠ new_col_name.

#[global] Instance valid_inputs_dec user master uk mk v :
  Decision (valid_inputs user master uk mk v).
Proof. unfold valid_inputs. apply _. Defined.

(** The labels of the result on valid inputs: the data labels and the
    output label; on an empty data table whose key label is also the
    master's, the merge keeps the master's copy of the key column, which
    stands after the other data columns. *)
Definition result_columns (user : DataFrame) (user_e_col master_e_col : string)
  : list string :=
  if decide (user_e_col = master_e_col ∧ rows user = [])
  then filter (λ c, c ≠ user_e_col) (columns user) ++ [user_e_col; new_col_name]
  else columns user ++ [new_col_name].

(** The result table on valid inputs. *)
Definition converted (user master : DataFrame)
    (user_e_col master_e_col new_part_col : string) : DataFrame :=
  let iu := get_loc user_e_col (columns user) in
  let ik := get_loc master_e_col (columns master) in
  let iv := get_loc new_part_col (columns master) in
  {| columns := result_columns user user_e_col master_e_col;
     rows := converted_row (unmatched iu ik (rows user) (rows master))
               iu ik iv (rows master) <$> rows user |}.

(** The handler, run on the store [σ], returns a reference to [res]. *)
Definition converts (σ : store) (user_df master_df : ref)
    (user_e_col master_e_col new_part_col : string) (res : DataFrame) : Prop :=
  ∃ (r : ref) (σ' : store),
    convert user_df master_df user_e_col master_e_col new_part_col σ = (Ok r, σ')
    ∧ σ' !! r = Some res.

(** ** The uploaders and the dispatch of the loader *)

(** The [type=] list of the two uploaders. *)
Definition SUPPORTED_TYPES : list string :=
  ["csv"; "tsv"; "txt"; "xlsx"; "xls"; "xlsm"; "xlsb"].

(** The lower-cased name reaches one of the three branches of the
    loader. *)
Definition dispatched (file_name_lower : string) : bool :=
  PyStr.endswith_any file_name_lower [".csv"; ".tsv"; ".txt"]
  || PyStr.endswith file_name_lower ".xlsb"
  || PyStr.endswith_any file_name_lower [".xlsx"; ".xlsm"; ".xls"].

(** The suffixes under which the loader calls an engine. *)
Definition engine_suffixes (eng : engine) : list string :=
  match eng with
  | PythonCsv => [".csv"; ".tsv"; ".txt"]
  | Pyxlsb => [".xlsb"]
  | Openpyxl | Xlrd => [".xlsx"; ".xlsm"; ".xls"]
  end.

Definition is_read (ev : event) : bool :=
  match ev with Read _ _ _ => true | _ => false end.

Definition is_seek (ev : event) : bool :=
  match ev with Seek _ => true | _ => false end.

(** ** The form: default selections *)

(** [cols.index(x)]: the first position of [x], a [ValueError] when [x]
    is not in the list. *)
Fixpoint list_index (x : string) (cols : list string) : outcome nat :=
  match cols with
  | [] => Raise (ValueError (PyStr.repr x +:+ " is not in list"))
  | c :: cs =>
      if decide (c = x) then Ok 0%nat else i ← list_index x cs; Ok (S i)
  end.

(** [cols.index(label) if label in cols else fallback] *)
Definition default_index (label : string) (fallback : nat) (cols : list string)
  : outcome nat :=
  if decide (label ∈ cols) then list_index label cols else Ok fallback.

(** What [st.selectbox] raises for an index that is no position of a
    non-empty list of options (a [StreamlitAPIException]). *)
Definition selectbox_index_error : exn :=
  OtherError "Selectbox index must be greater than or equal to 0 and less than the length of options.".

(** [st.selectbox(label, options, index=index)] before the user chooses:
    the option at the index; [None] when there is no option. *)
Definition selectbox (options : list string) (index : nat)
  : outcome (option string) :=
  match options with
  | [] => Ok None
  | _ => from_option (λ o, Ok (Some o)) (Raise selectbox_index_error)
           (options !! index)
  end.

(** A select box over the columns that starts at the preferred label, or
    at a fallback position (source lines 120 to 128). *)
Definition default_selection (label : string) (fallback : nat)
    (cols : list string) : outcome (option string) :=
  index ← default_index label fallback cols; selectbox cols index.

Definition master_e_col_default (master_cols : list string) :=
  default_selection "E Number" 0 master_cols.

Definition new_part_col_default (master_cols : list string) :=
  default_selection "200 Number" 1 master_cols.

Definition user_e_col_default (user_cols : list string) :=
  default_selection "PART/ E #" 0 user_cols.

(** ** More worked inputs *)

(** A master and a data table with a blank key cell. *)
Definition ex_master_blank : DataFrame :=
  {| columns := ["E"; "New"];
     rows := [[CText "A1"; CText "X1"]; [CMissing; CText "XB"]] |}.

Definition ex_data_blank : DataFrame :=
  {| columns := ["Part"]; rows := [[CMissing]; [CText "A1"]] |}.

(** [ex_master] with one more column between its two. *)
Definition ex_master_wide : DataFrame :=
  {| columns := ["E"; "Desc"; "New"];
     rows := [[CText "A1"; CText "bolt"; CText "X1"];
              [CText "A1"; CMissing; CText "X2"];
              [CText "B2"; CText "nut"; CText "Y1"]] |}.

(** [ex_master] without its second row. *)
Definition ex_master_dedup : DataFrame :=
  {| columns := ["E"; "New"];
     rows := [[CText "A1"; CText "X1"]; [CText "B2"; CText "Y1"]] |}.

(** A data table with two spellings of one key. *)
Definition ex_data_twice : DataFrame :=
  {| columns := ["Part"]; rows := [[CText "A1"]; [CText " A1"]] |}.

(** Tables with the standard headers. *)
Definition ex_master_std : DataFrame :=
  {| columns := ["Description"; "E Number"; "200 Number"];
     rows := [[CText "bolt"; CText "E100"; CInt 200100]] |}.

Definition ex_data_std : DataFrame :=
  {| columns := ["PART/ E #"; "Qty"]; rows := [[CText "E100 "; CInt 4]] |}.

(** A master whose first column is "200 Number" and that has no
    "E Number" column. *)
Definition ex_master_200_first : DataFrame :=
  {| columns := ["200 Number"; "Legacy"];
     rows := [[CInt 200100; CText "E100"]] |}.

(** ** Facts about Python text *)

Module PyStrFacts.
Import PyStr.

Lemma endswith_nonempty s p :
  endswith s p = true → p ≠ "" → s ≠ "".
Proof.
  destruct s; [|done]. destruct p; [done|]. simpl. discriminate.
Qed.

Lemma endswith_last_char s p :
  endswith s p = true → p ≠ "" → last_char s = last_char p.
Proof.
  induction s as [|c s IH]; intros H Hp.
  - destruct p; [done|]. simpl in H. discriminate.
  - change (endswith (String c s) p)
      with (String.eqb (String c s) p || endswith s p) in H.
    apply orb_true_iff in H as [H|H].
    + apply String.eqb_eq in H. by rewrite H.
    + rewrite <- (IH H Hp).
      pose proof (endswith_nonempty _ _ H Hp). by destruct s.
Qed.

Lemma lstrip_blank s : blank s = true → lstrip s = "".
Proof.
  induction s as [|c s IH]; [done|]. simpl.
  intros [Hc Hs]%andb_true_iff. rewrite Hc. auto.
Qed.

Lemma rstrip_blank s : blank s = true → rstrip s = "".
Proof.
  induction s as [|c s IH]; [done|]. simpl.
  intros [Hc Hs]%andb_true_iff. by rewrite (IH Hs), Hc.
Qed.

Lemma lstrip_app s r :
  lstrip (s +:+ r) = if blank s then lstrip r else lstrip s +:+ r.
Proof.
  induction s as [|c s IH]; [done|]. simpl.
  destruct (isspace c); simpl; [apply IH|done].
Qed.

Lemma rstrip_app_blank s r : blank r = true → rstrip (s +:+ r) = rstrip s.
Proof.
  intros Hr. induction s as [|c s IH]; simpl.
  - by apply rstrip_blank.
  - by rewrite IH.
Qed.

(** Whitespace around a text does not change what [strip] gives. *)
Lemma strip_pad l s r :
  blank l = true → blank r = true → strip (l +:+ s +:+ r) = strip s.
Proof.
  intros Hl Hr. unfold strip.
  rewrite lstrip_app, Hl, lstrip_app.
  destruct (blank s) eqn:Hs.
  - by rewrite (lstrip_blank r), (lstrip_blank s).
  - by apply rstrip_app_blank.
Qed.

Lemma lstrip_no_space s :
  Forall (λ c, isspace c = false) (list_ascii_of_string s) → lstrip s = s.
Proof. destruct s as [|c s]; [done|]. simpl. intros [-> _]%Forall_cons. done. Qed.

Lemma rstrip_no_space s :
  Forall (λ c, isspace c = false) (list_ascii_of_string s) → rstrip s = s.
Proof.
  induction s as [|c s IH]; [done|]. simpl.
  intros [Hc Hs]%Forall_cons. rewrite (IH Hs), Hc. by destruct s.
Qed.

Lemma strip_no_space s :
  Forall (λ c, isspace c = false) (list_ascii_of_string s) → strip s = s.
Proof.
  intros H. unfold strip. rewrite lstrip_no_space by done.
  by apply rstrip_no_space.
Qed.

Lemma string_of_uint_no_space d :
  Forall (λ c, isspace c = false)
    (list_ascii_of_string (NilEmpty.string_of_uint d)).
Proof. induction d; simpl; by constructor. Qed.

(** The decimal text of an [int] has no whitespace in it. *)
Lemma of_int_no_space z :
  Forall (λ c, isspace c = false) (list_ascii_of_string (of_int z)).
Proof.
  unfold of_int. destruct (Z.to_int z); simpl.
  - apply string_of_uint_no_space.
  - constructor; [done|]. apply string_of_uint_no_space.
Qed.

Lemma strip_of_int z : strip (of_int z) = of_int z.
Proof. apply strip_no_space, of_int_no_space. Qed.







Lemma append_assoc a b c : (a +:+ b) +:+ c = a +:+ b +:+ c.
Proof.
  induction a as [|x a IH]; [done|].
  change ((String x a +:+ b) +:+ c) with (String x ((a +:+ b) +:+ c)).
  by rewrite IH.
Qed.

Lemma list_ascii_app a b :
  list_ascii_of_string (a +:+ b)
  = list_ascii_of_string a ++ list_ascii_of_string b.
Proof. induction a as [|c a IH]; simpl; [done|]. by rewrite IH. Qed.

Lemma string_of_uint_digits d :
  Forall (λ c, c ≠ "."%char) (list_ascii_of_string (NilEmpty.string_of_uint d)).
Proof. induction d; simpl; by constructor. Qed.

(** The decimal text of an [int] has no point in it. *)
Lemma of_int_no_point z :
  Forall (λ c, c ≠ "."%char) (list_ascii_of_string (of_int z)).
Proof.
  unfold of_int. destruct (Z.to_int z); simpl.
  - apply string_of_uint_digits.
  - constructor; [done|]. apply string_of_uint_digits.
Qed.

(** The text of a float below 1e16 is no decimal text of an [int], and
    [strip] leaves it as it is. *)
Lemma float_text z z' : of_int z +:+ ".0" ≠ of_int z'.
Proof.
  intros E. pose proof (of_int_no_point z') as H.
  rewrite <- E, list_ascii_app, Forall_app in H. destruct H as [_ H].
  by apply Forall_cons in H as [? _].
Qed.

Lemma strip_float_text z : strip (of_int z +:+ ".0") = of_int z +:+ ".0".
Proof.
  apply strip_no_space. rewrite list_ascii_app. apply Forall_app.
  split; [apply of_int_no_space|]. by repeat constructor.
Qed.

End PyStrFacts.

(** ** The loader: its outcomes *)

Section LoaderFacts.

Variable reader : engine → string → nat → Z → (exn + DataFrame) * nat.

(** A name with a modern spreadsheet extension has none of the
    extensions tested before it. *)
Lemma modern_extension_only lname :
  PyStr.endswith_any lname [".xlsx"; ".xlsm"; ".xls"] = true →
  PyStr.endswith_any lname [".csv"; ".tsv"; ".txt"] = false
  ∧ PyStr.endswith lname ".xlsb" = false.
Proof.
  unfold PyStr.endswith_any. simpl. rewrite orb_false_r.
  intros H.
  assert (∀ p, p ≠ "" → PyStr.endswith lname p = true →
               PyStr.last_char lname = PyStr.last_char p) as L
    by (intros; by apply PyStrFacts.endswith_last_char).
  assert (PyStr.last_char lname = Some "x"%char
          ∨ PyStr.last_char lname = Some "m"%char
          ∨ PyStr.last_char lname = Some "s"%char) as Hl.
  { apply orb_true_iff in H as [H|H]; [|apply orb_true_iff in H as [H|H]];
      apply L in H; try done; simpl in H; auto. }
  split.
  - rewrite orb_false_r. apply not_true_iff_false. intros Hc.
    apply orb_true_iff in Hc as [Hc|Hc]; [|apply orb_true_iff in Hc as [Hc|Hc]];
      apply L in Hc; try done; simpl in Hc;
      destruct Hl as [Hl|[Hl|Hl]]; congruence.
  - apply not_true_iff_false. intros Hc. apply L in Hc; [|done]. simpl in Hc.
    destruct Hl as [Hl|[Hl|Hl]]; congruence.
Qed.

(** Runs the monad of the loader on a goal. *)
Ltac run_loader :=
  unfold load_data_file, try_except, read_with, seek, st_error, st_info,
    raise, mbind, mret, M_bind, M_ret, bind, ret;
  cbn -[PyStr.endswith_any PyStr.endswith retry_with_xlrd failed_to_read
        header_hint Z.sub].



(** Membership of an event in a closed log. *)
Ltac in_log := repeat first [apply list_elem_of_here | apply list_elem_of_further].
Ltac not_in_log H :=
  rewrite ?elem_of_cons, ?elem_of_nil in H; intuition discriminate.

(** C9. For a name with a modern spreadsheet extension the first call
    is the zip-based reader.  The second reader is called exactly when
    the first one raised an exception whose lower-cased text holds
    "zip file", or the lower-cased name ends in ".xls"; it is then called
    right after a seek to 0, from position 0.  Any other failure of the
    first reader goes to the handler with no second call: the loader
    reports that exception and returns [None]. *)
Theorem xlrd_retry_iff (f : UploadedFile) (h : Z) (s : session) :
  PyStr.endswith_any (PyStr.lower (name f)) [".xlsx"; ".xlsm"; ".xls"] = true →
  ∃ (r : option DataFrame) (s' : session) (evs : list event),
    load_data_file reader f h s = (Ok r, s')
    ∧ log s' = log s ++ Read Openpyxl (position s) (h - 1)%Z :: evs
    ∧ ((∃ pos, Read Xlrd pos (h - 1)%Z ∈ evs) ↔
       ∃ e, (reader Openpyxl (data f) (position s) (h - 1)%Z).1 = inl e
            ∧ (PyStr.contains (PyStr.lower (exn_str e)) "zip file" = true
               ∨ PyStr.endswith (PyStr.lower (name f)) ".xls" = true))
    ∧ (∀ pos, Read Xlrd pos (h - 1)%Z ∈ evs →
         ∃ evs', evs = Seek 0 :: Read Xlrd 0 (h - 1)%Z :: evs'
                 ∧ ∀ pos', Read Xlrd pos' (h - 1)%Z ∉ evs')
    ∧ (∀ e, (reader Openpyxl (data f) (position s) (h - 1)%Z).1 = inl e →
         retry_with_xlrd (PyStr.lower (name f)) e = false →
         r = None ∧ evs = [StError (failed_to_read f e); StInfo header_hint]).
Proof.
  intros Hext. destruct (modern_extension_only _ Hext) as [H1 H2].
  run_loader. rewrite H1, H2, Hext.
  destruct (reader Openpyxl _ _ _) as [[e|df] p] eqn:E; simpl.
  - destruct (retry_with_xlrd _ e) eqn:R; simpl.
    + assert (PyStr.contains (PyStr.lower (exn_str e)) "zip file" = true
              ∨ PyStr.endswith (PyStr.lower (name f)) ".xls" = true) as Hc
        by (by apply orb_true_iff).
      destruct (reader Xlrd _ _ _) as [[e'|df] p'] eqn:E'; simpl.
      * eexists None, _, [Seek 0; Read Xlrd 0 (h - 1)%Z; _; _].
        split; [done|]. split; [by rewrite <- !app_assoc|].
        split; [|split].
        -- split; [eauto|]. intros _. exists 0%nat. in_log.
        -- intros _ _. eexists. split; [done|]. intros pos' Hin.
           not_in_log Hin.
        -- intros e0 [= <-]. congruence.
      * eexists (Some df), _, [Seek 0; Read Xlrd 0 (h - 1)%Z].
        split; [done|]. split; [by rewrite <- !app_assoc|].
        split; [|split].
        -- split; [eauto|]. intros _. exists 0%nat. in_log.
        -- intros _ _. eexists. split; [done|]. intros pos' Hin.
           not_in_log Hin.
        -- intros e0 [= <-]. congruence.
    + eexists None, _, [_; _].
      split; [done|]. split; [by rewrite <- !app_assoc|].
      split; [|split].
      * split.
        -- intros [pos Hin]. not_in_log Hin.
        -- intros (e0 & [= <-] & Hc). apply orb_true_iff in Hc.
           unfold retry_with_xlrd in R. congruence.
      * intros pos Hin. not_in_log Hin.
      * intros e0 [= <-] _. done.
  - eexists (Some df), _, []. split; [done|]. split; [done|].
    split; [|split].
    + split.
      * intros [pos Hin]. not_in_log Hin.
      * intros (e0 & [=] & _).
    + intros pos Hin. not_in_log Hin.
    + intros e0 [=].
Qed.

End LoaderFacts.

(** ** The pandas calls on well-formed frames *)

Module PandasFacts.
Import Pandas.

Lemma get_locs_notin label cols : label ∉ cols → get_locs label cols = [].
Proof.
  induction cols as [|c cs IH]; [done|]. intros Hn.
  apply not_elem_of_cons in Hn as [Hne Hn]. simpl.
  rewrite decide_False by done. by rewrite IH.
Qed.

Lemma get_locs_app label c1 c2 :
  get_locs label (c1 ++ c2)
  = get_locs label c1 ++ ((λ i, length c1 + i)%nat <$> get_locs label c2).
Proof.
  induction c1 as [|c cs IH]; simpl.
  - by rewrite list_fmap_id.
  - rewrite IH, fmap_app, <- app_assoc. f_equal. f_equal.
    rewrite <- list_fmap_compose. done.
Qed.

Lemma get_locs_unique label cols i :
  NoDup cols → cols !! i = Some label → get_locs label cols = [i].
Proof.
  intros Hnd. revert i. induction Hnd as [|c cs Hc Hnd IH]; intros i Hi; [done|].
  simpl. destruct i as [|i]; simpl in Hi.
  - injection Hi as ->. rewrite decide_True by done.
    by rewrite get_locs_notin.
  - rewrite decide_False.
    + by rewrite (IH i Hi).
    + intros ->. apply Hc. by eapply list_elem_of_lookup_2.
Qed.

Lemma get_locs_nil label cols : get_locs label cols = [] → label ∉ cols.
Proof.
  induction cols as [|c cs IH]; simpl; [intros _; apply not_elem_of_nil|].
  destruct (decide (c = label)); [done|]. simpl.
  intros H%fmap_nil_inv. apply not_elem_of_cons. split; [done|]. by apply IH.
Qed.

Lemma get_loc_lookup label cols :
  label ∈ cols → cols !! get_loc label cols = Some label.
Proof.
  unfold get_loc. induction cols as [|c cs IH]; intros Hin.
  - by apply elem_of_nil in Hin.
  - simpl. destruct (decide (c = label)) as [->|Hne]; [done|]. simpl.
    apply elem_of_cons in Hin as [?|Hin]; [congruence|].
    specialize (IH Hin). destruct (get_locs label cs) eqn:E; simpl in *; [|done].
    by apply get_locs_nil in E.
Qed.

Lemma get_locs_get_loc label cols :
  NoDup cols → label ∈ cols → get_locs label cols = [get_loc label cols].
Proof. intros. apply get_locs_unique; [done|]. by apply get_loc_lookup. Qed.

Lemma select_one label cols :
  NoDup cols → label ∈ cols → select label cols = OneColumn (get_loc label cols).
Proof. intros. unfold select. by rewrite get_locs_get_loc. Qed.

Lemma get_loc_lt label cols : label ∈ cols → (get_loc label cols < length cols)%nat.
Proof. intros H. eapply lookup_lt_Some. by apply get_loc_lookup. Qed.


(** *** Lists *)

Lemma zip_with_fmap_same {A B C D} (h : B → C → D) (f : A → B) (g : A → C) (l : list A) :
  zip_with h (f <$> l) (g <$> l) = (λ x, h (f x) (g x)) <$> l.
Proof.
  induction l as [|x l IH]; [done|].
  rewrite !fmap_cons. cbn [zip_with]. by rewrite IH.
Qed.

Lemma filter_fmap_pred {A B} (f : A → B) (P : B → Prop) `{∀ y, Decision (P y)}
    (Q : A → Prop) `{∀ x, Decision (Q x)} (l : list A) :
  (∀ x, P (f x) ↔ Q x) → filter P (f <$> l) = f <$> filter Q l.
Proof.
  intros HPQ. induction l as [|x l IH]; [done|].
  rewrite fmap_cons, !filter_cons. destruct (decide (P (f x))) as [Hp|Hp].
  - rewrite decide_True by (by apply HPQ). by rewrite fmap_cons, IH.
  - rewrite decide_False by (by rewrite <- HPQ). done.
Qed.

(** *** [keep_first] *)

Lemma filter_keep_first {K} `{EqDecision K} (key : list cell → K) (k : K)
    (P : list cell → Prop) `{∀ r, Decision (P r)} seen rs :
  (∀ r, P r ↔ key r = k) →
  filter P (keep_first key seen rs)
  = if decide (k ∈ seen) then [] else option_list (head (filter P rs)).
Proof.
  intros HP. revert seen. induction rs as [|r rs IH]; intros seen; simpl.
  - by destruct (decide _).
  - rewrite (filter_cons P r rs). destruct (decide (key r ∈ seen)) as [Hs|Hs].
    + rewrite IH. destruct (decide (k ∈ seen)) as [|Hk]; [done|].
      rewrite decide_False; [done|]. rewrite HP. intros E. by rewrite E in Hs.
    + rewrite filter_cons. destruct (decide (P r)) as [Hp|Hp].
      * apply HP in Hp as Hkey. rewrite IH.
        rewrite decide_True by (rewrite Hkey; apply list_elem_of_here).
        rewrite decide_False by (by rewrite <- Hkey). done.
      * rewrite IH. destruct (decide (k ∈ seen)) as [Hk|Hk].
        -- rewrite decide_True by (by apply list_elem_of_further). done.
        -- rewrite decide_False; [done|].
           rewrite elem_of_cons. intros [E|?]; [|done]. by apply Hp, HP.
Qed.

Lemma keep_first_fmap {K} `{EqDecision K} (key : list cell → K)
    (m : list cell → list cell) seen rs :
  keep_first key seen (m <$> rs) = m <$> keep_first (key ∘ m) seen rs.
Proof.
  revert seen. induction rs as [|r rs IH]; intros seen; [done|]. simpl.
  destruct (decide _); simpl; by rewrite IH.
Qed.

Lemma keep_first_length {K} `{EqDecision K} (key : list cell → K) seen rs :
  (length (keep_first key seen rs) ≤ length rs)%nat.
Proof.
  revert seen. induction rs as [|r rs IH]; intros seen; simpl; [done|].
  destruct (decide _); simpl; [specialize (IH seen) | specialize (IH (key r :: seen))]; lia.
Qed.


(** *** The calls of the handler, one by one *)

Lemma getitem_list_pair df mk v :
  NoDup (columns df) → mk ∈ columns df → v ∈ columns df →
  getitem_list [mk; v] df
  = Ok {| columns := [mk; v];
          rows := (λ r, [cell_at (get_loc mk (columns df)) r;
                         cell_at (get_loc v (columns df)) r]) <$> rows df |}.
Proof.
  intros Hnd Hmk Hv. unfold getitem_list.
  rewrite !filter_cons, !decide_False, filter_nil by (intros H; by apply H).
  cbn [mbind list_bind].
  rewrite !get_locs_get_loc by done. done.
Qed.

Lemma normalize_rows i (rs : list (list cell)) :
  zip_with (λ r x, <[i:=x]> r) rs (str_strip <$> (astype_str <$> column_at i rs))
  = (λ r, <[i:=normalize_key (cell_at i r)]> r) <$> rs.
Proof.
  unfold column_at. rewrite <- !list_fmap_compose.
  rewrite <- (list_fmap_id rs) at 1. by rewrite zip_with_fmap_same.
Qed.

Lemma normalize_column_one label df :
  NoDup (columns df) → label ∈ columns df →
  normalize_column label df
  = Ok {| columns := columns df;
          rows := (λ r, <[get_loc label (columns df)
                          := normalize_key (cell_at (get_loc label (columns df)) r)]> r)
                  <$> rows df |}.
Proof.
  intros Hnd Hin. unfold normalize_column, getitem_astype_str, setitem.
  rewrite select_one, get_locs_get_loc by done.
  cbn [mbind outcome_bind foldr]. by rewrite normalize_rows.
Qed.


(** The mapping rows: normalized key and value of each master row. *)
Local Abbreviation mapping_row ik iv :=
  (λ x : list cell, [normalize_key (cell_at ik x); cell_at iv x]).

Lemma filter_mapping_key k ik iv (h : list cell → list cell) mrows :
  let D := keep_first (λ r, (λ i, cell_at i r) <$> [0%nat]) []
             (mapping_row ik iv <$> mrows) in
  filter (λ p, p.1 = k) (zip (column_at 0 D) (h <$> D))
  = (λ x, (cell_at 0 x, h x))
    <$> option_list (mapping_row ik iv <$> first_match k ik mrows).
Proof.
  intros D. unfold column_at.
  rewrite <- (list_fmap_id D) at 1. rewrite <- (list_fmap_id D) at 2.
  rewrite <- !list_fmap_compose.
  change (zip ?a ?b) with (zip_with pair a b).
  rewrite (zip_with_fmap_same pair).
  rewrite (filter_fmap_pred _ _ (λ x, cell_at 0 x = k)) by done.
  f_equal. unfold D.
  rewrite (filter_keep_first _ [k]).
  2:{ intros r. simpl. split; [by intros ->|by intros [=]]. }
  rewrite decide_False by apply not_elem_of_nil.
  rewrite (filter_fmap_pred _ _ (λ x, normalize_key (cell_at ik x) = k)) by done.
  unfold first_match. by destruct (filter _ mrows).
Qed.

Lemma left_join_rows_mapping iu ik iv (h : list cell → list cell) w mrows
    (urows : list (list cell)) :
  let D := keep_first (λ r, (λ i, cell_at i r) <$> [0%nat]) []
             (mapping_row ik iv <$> mrows) in
  left_join_rows (column_at iu urows) (column_at 0 D) urows (h <$> D) w
  = (λ r, r ++ from_option (λ x, h (mapping_row ik iv x)) (replicate w CMissing)
                 (first_match (cell_at iu r) ik mrows)) <$> urows.
Proof.
  intros D. unfold left_join_rows.
  induction urows as [|r urows IH]; [done|].
  change (column_at iu (r :: urows)) with (cell_at iu r :: column_at iu urows).
  cbn [zip_with]. rewrite bind_cons, IH. cbn [fst snd].
  unfold D. rewrite (filter_mapping_key _ ik iv h mrows).
  rewrite fmap_cons. by destruct (first_match _ ik mrows).
Qed.

Lemma cell_at_insert i x (r : list cell) :
  (i < length r)%nat → cell_at i (<[i:=x]> r) = x.
Proof. intros H. unfold cell_at. by rewrite list_lookup_insert_eq. Qed.

(** The rows of the right frame as the join hands them on. *)
Lemma merged_rows (b : bool) (rs : list (list cell)) :
  (if b then rs else (λ x : list cell, upcast <$> x) <$> rs)
  = (λ x : list cell, merged_value (negb b) <$> x) <$> rs.
Proof.
  destruct b; [|done]. rewrite <- (list_fmap_id rs) at 1.
  apply list_fmap_ext. intros i x _. symmetry. apply list_fmap_id.
Qed.

(** A key is in the deduplicated mapping exactly when a master row has
    it. *)
Lemma mapping_key_in k ik iv mrows :
  let D := keep_first (λ r, (λ i, cell_at i r) <$> [0%nat]) []
             (mapping_row ik iv <$> mrows) in
  k ∈ column_at 0 D ↔ first_match k ik mrows ≠ None.
Proof.
  intros D.
  assert (filter (λ x, cell_at 0 x = k) D
          = option_list (mapping_row ik iv <$> first_match k ik mrows)) as E.
  { unfold D. rewrite (filter_keep_first _ [k]).
    2:{ intros r. simpl. split; [by intros ->|by intros [=]]. }
    rewrite decide_False by apply not_elem_of_nil.
    rewrite (filter_fmap_pred _ _ (λ x, normalize_key (cell_at ik x) = k)) by done.
    unfold first_match. by destruct (filter _ mrows). }
  unfold column_at. rewrite list_elem_of_fmap. split.
  - intros (x & -> & Hx) Hnone.
    assert (x ∈ filter (λ y, cell_at 0 y = cell_at 0 x) D) as Hin
      by (by apply list_elem_of_filter).
    rewrite E, Hnone in Hin. by apply elem_of_nil in Hin.
  - intros Hsome. destruct (first_match k ik mrows) as [y|] eqn:Ey; [|done].
    assert (mapping_row ik iv y ∈ filter (λ x, cell_at 0 x = k) D) as Hin
      by (rewrite E; apply list_elem_of_here).
    apply list_elem_of_filter in Hin as [Hk Hin]. by eexists.
Qed.

(** The test of the merge for a left key without a match. *)
Lemma all_matched iu ik iv (urows mrows : list (list cell)) :
  let D := keep_first (λ r, (λ i, cell_at i r) <$> [0%nat]) []
             (mapping_row ik iv <$> mrows) in
  Forall (λ r, iu < length r)%nat urows →
  forallb (λ k, bool_decide (k ∈ column_at 0 D))
    (column_at iu ((λ r, <[iu:=normalize_key (cell_at iu r)]> r) <$> urows))
  = negb (unmatched iu ik urows mrows).
Proof.
  intros D H. unfold unmatched, column_at. rewrite <- list_fmap_compose.
  induction H as [|r urows Hr H IH]; [done|].
  rewrite fmap_cons. cbn [forallb existsb compose]. rewrite IH, negb_orb.
  f_equal. rewrite cell_at_insert by done.
  rewrite <- bool_decide_not. apply bool_decide_ext, mapping_key_in.
Qed.

Lemma filter_row_app keep c1 c2 (r1 r2 : list cell) :
  length r1 = length c1 →
  filter_row keep (c1 ++ c2) (r1 ++ r2)
  = filter_row keep c1 r1 ++ filter_row keep c2 r2.
Proof.
  intros Hl. unfold filter_row.
  change (zip ?a ?b) with (zip_with pair a b).
  rewrite zip_with_app by done. by rewrite filter_app, fmap_app.
Qed.

Lemma filter_row_all keep cols (r : list cell) :
  Forall (λ c, keep c = true) cols → length r = length cols →
  filter_row keep cols r = r.
Proof.
  intros Hall. revert r. unfold filter_row.
  induction Hall as [|c cols Hc Hall IH]; intros [|x r] Hl; try done.
  simpl. rewrite filter_cons. simpl. rewrite decide_True by done.
  simpl. f_equal. apply IH. simpl in Hl. lia.
Qed.


Lemma get_locs_pair_fst (a b : string) : a ≠ b → get_locs a [a; b] = [0%nat].
Proof.
  intros Hne. simpl. rewrite decide_True by done.
  rewrite decide_False by done. done.
Qed.

Lemma get_loc_pair_fst (a b : string) : get_loc a [a; b] = 0%nat.
Proof. unfold get_loc. simpl. by rewrite decide_True. Qed.

Lemma mapping_rows ik iv (mrows : list (list cell)) :
  (λ r, <[0%nat:=normalize_key (cell_at 0 r)]> r)
    <$> ((λ r, [cell_at ik r; cell_at iv r]) <$> mrows)
  = mapping_row ik iv <$> mrows.
Proof. by rewrite <- list_fmap_compose. Qed.

Lemma items_overlap_disjoint (l r : list string) :
  Forall (λ c, c ∉ r) l → items_overlap_with_suffix l r = Ok (l, r).
Proof.
  intros H. unfold items_overlap_with_suffix.
  assert (filter (λ c, c ∈ r) l = []) as ->; [|done].
  induction H as [|c l Hc H IH]; [done|].
  rewrite filter_cons, decide_False by done. done.
Qed.

Lemma rename_fresh (old new : string) (cols : list string) :
  old ∉ cols → (λ c, if decide (c = old) then new else c) <$> cols = cols.
Proof.
  intros H. induction cols as [|c cols IH]; [done|].
  apply not_elem_of_cons in H as [Hne H].
  rewrite fmap_cons, decide_False by done. by rewrite IH.
Qed.

Lemma filter_ne_fresh (label : string) (cols : list string) :
  label ∉ cols → filter (λ c, c ≠ label) cols = cols.
Proof.
  intros H. induction cols as [|c cols IH]; [done|].
  apply not_elem_of_cons in H as [Hne H].
  rewrite filter_cons, decide_True by done. by rewrite IH.
Qed.

Lemma Forall_keep_ne (label : string) (cols : list string) :
  label ∉ cols → Forall (λ c, bool_decide (c ≠ label) = true) cols.
Proof.
  intros H. apply Forall_forall. intros c Hc. apply bool_decide_eq_true.
  intros ->. done.
Qed.

(** A joined row after [drop] and the fill, when the key labels differ. *)
Lemma converted_row_drop (cols : list string) mk up iu ik iv mrows
    (r : list cell) :
  mk ∉ cols → mk ≠ new_col_name → length r = length cols →
  (iu < length cols)%nat →
  let r' := <[iu:=normalize_key (cell_at iu r)]> r in
  alter (fillna (CText NOT_FOUND)) (length cols)
    (filter_row (λ c, bool_decide (c ≠ mk)) (cols ++ [mk; new_col_name])
       (r' ++ from_option (λ x, merged_value up <$> mapping_row ik iv x)
                (replicate 2 CMissing) (first_match (cell_at iu r') ik mrows)))
  = converted_row up iu ik iv mrows r.
Proof.
  intros Hmk Hnew Hl Hiu r'.
  assert (length r' = length cols) as Hl' by (unfold r'; by rewrite length_insert).
  rewrite filter_row_app by done.
  rewrite (filter_row_all _ cols) by (done || by apply Forall_keep_ne).
  unfold r' at 2. rewrite cell_at_insert by lia.
  rewrite <- Hl', <- (Nat.add_0_r (length r')), alter_app_r.
  unfold converted_row, output_cell. fold r'. f_equal.
  destruct (first_match _ ik mrows); unfold filter_row; simpl;
    rewrite !filter_cons; simpl;
    rewrite bool_decide_eq_false_2, bool_decide_eq_true_2 by (auto; congruence);
    done.
Qed.

(** A joined row after the fill, when both keys have the same label. *)
Lemma converted_row_same (cols : list string) (mk v : string) up iu ik iv
    mrows (r : list cell) :
  mk ≠ v → length r = length cols → (iu < length cols)%nat →
  let r' := <[iu:=normalize_key (cell_at iu r)]> r in
  alter (fillna (CText NOT_FOUND)) (length cols)
    (r' ++ from_option
             (λ x, merged_value up
                     <$> filter_row (λ c, bool_decide (c ≠ mk)) [mk; v]
                           (mapping_row ik iv x))
             (replicate 1 CMissing) (first_match (cell_at iu r') ik mrows))
  = converted_row up iu ik iv mrows r.
Proof.
  intros Hne Hl Hiu r'.
  assert (length r' = length cols) as Hl' by (unfold r'; by rewrite length_insert).
  unfold r' at 2. rewrite cell_at_insert by lia.
  rewrite <- Hl', <- (Nat.add_0_r (length r')), alter_app_r.
  unfold converted_row, output_cell. fold r'. f_equal.
  destruct (first_match _ ik mrows); unfold filter_row; simpl;
    rewrite ?filter_cons; simpl;
    rewrite ?bool_decide_eq_false_2, ?bool_decide_eq_true_2 by (auto; congruence);
    done.
Qed.

Lemma convert_frames_valid U Mf uk mk v :
  valid_inputs U Mf uk mk v →
  convert_frames U Mf uk mk v = Ok (converted U Mf uk mk v).
Proof.
  intros ([HndU HlenU] & [HndM HlenM] & Huk & Hmk & Hv & Hne & HvU & HmkU
          & HnewU & Hmknew).
  set (iu := get_loc uk (columns U)).
  set (ik := get_loc mk (columns Mf)). set (iv := get_loc v (columns Mf)).
  assert (NoDup [mk; v]) as Hnd2.
  { apply NoDup_cons. split; [|apply NoDup_singleton].
    rewrite list_elem_of_singleton. done. }
  unfold convert_frames.
  rewrite getitem_list_pair by done. cbn [mbind outcome_bind].
  rewrite (normalize_column_one mk); [|exact Hnd2|apply list_elem_of_here].
  cbn [mbind outcome_bind columns rows].
  rewrite get_loc_pair_fst, mapping_rows. fold ik iv.
  rewrite (normalize_column_one uk) by done. cbn [mbind outcome_bind]. fold iu.
  unfold drop_duplicates. cbn [columns rows].
  rewrite get_locs_pair_fst by done. cbn [mbind outcome_bind].
  assert (iu < length (columns U))%nat as Hiu by (by apply get_loc_lt).
  set (nrm := λ r : list cell, <[iu:=normalize_key (cell_at iu r)]> r).
  set (D := keep_first _ [] _).
  assert (Forall (λ r, iu < length r)%nat (rows U)) as HiuU.
  { eapply Forall_impl; [exact HlenU|]. intros r Hr. cbv beta in Hr. lia. }
  unfold merge. cbn [columns rows]. unfold select at 1 2.
  rewrite get_locs_pair_fst, (get_locs_get_loc uk) by done. fold iu.
  assert (forallb (λ k, bool_decide (k ∈ column_at 0 D))
            (column_at iu (nrm <$> rows U))
          = negb (unmatched iu ik (rows U) (rows Mf))) as ->
    by exact (all_matched iu ik iv (rows U) (rows Mf) HiuU).
  unfold converted, result_columns, nrows. cbn [rows]. fold iu ik iv.
  set (up := unmatched iu ik (rows U) (rows Mf)).
  destruct (decide (uk = mk)) as [->|Hukmk].
  - (* one key label *)
    destruct (decide (mk ≠ mk)) as [?|_]; [done|].
    destruct (decide (0 < length (nrm <$> rows U))%nat) as [Hpos|Hemp].
    + rewrite decide_False
        by (intros [_ E]; rewrite E in Hpos; simpl in Hpos; lia).
      unfold without_label. cbn [columns rows].
      rewrite !filter_cons, decide_False, decide_True by (auto; congruence).
      rewrite filter_nil.
      rewrite items_overlap_disjoint.
      2:{ apply Forall_forall. intros c Hc. rewrite list_elem_of_singleton.
          intros ->. done. }
      cbn [mbind outcome_bind length]. unfold rename. cbn [columns rows].
      rewrite fmap_app, rename_fresh by done. cbn [fmap list_fmap].
      rewrite decide_True by done.
      unfold getitem_fillna, select. cbn [columns rows].
      rewrite get_locs_app, (get_locs_notin _ _ HnewU). cbn [app get_locs fmap list_fmap].
      rewrite decide_True by done. cbn [app fmap list_fmap].
      rewrite Nat.add_0_r. f_equal. f_equal.
      rewrite merged_rows, negb_involutive, <- list_fmap_compose.
      unfold D. rewrite left_join_rows_mapping.
      rewrite <- !list_fmap_compose. apply Forall_fmap_ext.
      eapply Forall_impl; [exact HlenU|]. intros r Hr. cbn [compose].
      by apply converted_row_same.
    + assert (rows U = []) as HU.
      { destruct (rows U); [done|]. simpl in Hemp. lia. }
      rewrite decide_True by done.
      unfold without_label at 1. cbn [columns rows]. rewrite HU.
      assert (Forall (λ c, c ∉ [mk; v]) (filter (λ c, c ≠ mk) (columns U)))
        as Hdis.
      { apply Forall_forall. intros c [Hc1 Hc2]%list_elem_of_filter.
        rewrite !elem_of_cons, elem_of_nil. intros [?|[->|[]]]; done. }
      rewrite items_overlap_disjoint by done.
      cbn [mbind outcome_bind]. unfold rename. cbn [columns rows].
      rewrite fmap_app, rename_fresh.
      2:{ intros [_ ?]%list_elem_of_filter. done. }
      cbn [fmap list_fmap].
      rewrite decide_False, decide_True by (auto; congruence).
      unfold getitem_fillna, select. cbn [columns rows].
      rewrite get_locs_app, get_locs_notin.
      2:{ intros [_ ?]%list_elem_of_filter. done. }
      cbn [app get_locs fmap list_fmap].
      rewrite decide_False, decide_True by (auto; congruence).
      cbn [app fmap list_fmap]. done.
  - (* two key labels *)
    destruct (decide (uk ≠ mk)) as [_|?]; [|done].
    destruct HmkU as [->|HmkU]; [done|].
    rewrite decide_False by (by intros [? _]).
    cbn [columns rows].
    rewrite items_overlap_disjoint.
    2:{ apply Forall_forall. intros c Hc. cbv beta.
        rewrite !elem_of_cons, elem_of_nil. intros [->|[->|[]]]; done. }
    cbn [mbind outcome_bind length]. unfold rename. cbn [columns rows].
    rewrite fmap_app, rename_fresh by done. cbn [fmap list_fmap].
    rewrite decide_False, decide_True by (auto; congruence).
    unfold drop. cbn [columns rows].
    rewrite decide_True
      by (apply elem_of_app; right; apply list_elem_of_here).
    cbn [mbind outcome_bind]. unfold without_label. cbn [columns rows].
    rewrite filter_app, filter_ne_fresh by done.
    rewrite !filter_cons, decide_False, decide_True by (auto; congruence).
    rewrite filter_nil.
    unfold getitem_fillna, select. cbn [columns rows].
    rewrite get_locs_app, (get_locs_notin _ _ HnewU).
    cbn [app get_locs fmap list_fmap].
    rewrite decide_True by done. cbn [app fmap list_fmap].
    rewrite Nat.add_0_r. f_equal. f_equal.
    rewrite merged_rows, negb_involutive.
    unfold D. rewrite left_join_rows_mapping.
    rewrite <- !list_fmap_compose. apply Forall_fmap_ext.
    eapply Forall_impl; [exact HlenU|]. intros r Hr. cbn [compose].
    by apply converted_row_drop.
Qed.

End PandasFacts.

(** ** The handler on the store *)

Module StoreFacts.

Lemma bind_ok {Σ A B} (m : M Σ A) (k : A → M Σ B) σ a σ' :
  m σ = (Ok a, σ') → bind m k σ = k a σ'.
Proof. intros H. unfold bind. by rewrite H. Qed.

Lemma bind_raise {Σ A B} (m : M Σ A) (k : A → M Σ B) σ e σ' :
  m σ = (Raise e, σ') → bind m k σ = (Raise e, σ').
Proof. intros H. unfold bind. by rewrite H. Qed.

Lemma bind_undefined {Σ A B} (m : M Σ A) (k : A → M Σ B) σ σ' :
  m σ = (Undefined, σ') → bind m k σ = (Undefined, σ').
Proof. intros H. unfold bind. by rewrite H. Qed.

Lemma bind_assoc {Σ A B C} (m : M Σ A) (f : A → M Σ B) (g : B → M Σ C) σ :
  bind (bind m f) g σ = bind m (λ x, bind (f x) g) σ.
Proof. unfold bind. by destruct (m σ) as [[]]. Qed.

Lemma lookup_new {A} (σ ν : list A) k :
  (σ ++ ν) !! (length σ + k)%nat = ν !! k.
Proof. rewrite lookup_app_r by lia. f_equal. lia. Qed.

Lemma df_copy_old (σ ν : store) r df :
  σ !! r = Some df →
  df_copy r (σ ++ ν) = (Ok (length σ + length ν)%nat, σ ++ (ν ++ [df])).
Proof.
  intros H. unfold df_copy, deref, alloc, mbind, M_bind, bind.
  rewrite (lookup_app_l_Some _ _ _ _ H). simpl.
  by rewrite length_app, app_assoc.
Qed.

Lemma deref_new (σ ν : store) k df :
  ν !! k = Some df → deref (length σ + k)%nat (σ ++ ν) = (Ok df, σ ++ ν).
Proof. intros H. unfold deref. by rewrite lookup_new, H. Qed.

Lemma alloc_new (σ ν : store) df :
  alloc df (σ ++ ν) = (Ok (length σ + length ν)%nat, σ ++ (ν ++ [df])).
Proof. unfold alloc. by rewrite length_app, app_assoc. Qed.

Lemma assign_new (σ ν : store) k df :
  assign (length σ + k)%nat df (σ ++ ν) = (Ok tt, σ ++ <[k:=df]> ν).
Proof. unfold assign. by rewrite insert_app_r. Qed.

Lemma df_copy_new (σ ν : store) k df :
  ν !! k = Some df →
  df_copy (length σ + k)%nat (σ ++ ν)
  = (Ok (length σ + length ν)%nat, σ ++ (ν ++ [df])).
Proof.
  intros H. unfold df_copy, mbind, M_bind.
  rewrite (bind_ok _ _ _ _ _ (deref_new σ ν k df H)). apply alloc_new.
Qed.

Lemma lift_eq {Σ A} (o : outcome A) (σ : Σ) : lift o σ = (o, σ).
Proof. done. Qed.

Lemma inplace_new (σ ν : store) k df f :
  ν !! k = Some df →
  inplace (length σ + k)%nat f (σ ++ ν)
  = match f df with
    | Ok df' => (Ok tt, σ ++ <[k:=df']> ν)
    | Raise e => (Raise e, σ ++ ν)
    | Undefined => (Undefined, σ ++ ν)
    end.
Proof.
  intros H. unfold inplace, mbind, M_bind.
  rewrite (bind_ok _ _ _ _ _ (deref_new σ ν k df H)).
  unfold bind. rewrite lift_eq. destruct (f df); [|done..]. apply assign_new.
Qed.

(** The handler on a store: it returns what [convert_frames] computes
    from the two frames, as the fifth frame it allocates, and the store it
    started from is a prefix of the store it leaves, whatever the outcome. *)
Lemma convert_store (σ : store) u m U Mf uk mk v :
  σ !! u = Some U → σ !! m = Some Mf →
  ∃ ν : store,
    convert u m uk mk v σ
    = (convert_frames U Mf uk mk v ≫= (λ _, Ok (length σ + 4)%nat), σ ++ ν)
    ∧ ∀ res, convert_frames U Mf uk mk v = Ok res → ν !! 4%nat = Some res.
Proof.
  intros Hu Hm.
  cut (∃ ν : store,
    convert u m uk mk v (σ ++ [])
    = (convert_frames U Mf uk mk v ≫= (λ _, Ok (length σ + 4)%nat), σ ++ ν)
    ∧ ∀ res, convert_frames U Mf uk mk v = Ok res → ν !! 4%nat = Some res).
  { by rewrite app_nil_r. }
  unfold convert, convert_frames, mbind, M_bind, mret, M_ret.
  rewrite (bind_ok _ _ _ _ _ (df_copy_old σ [] u U Hu)).
  rewrite (bind_ok _ _ _ _ _ (df_copy_old σ _ m Mf Hm)).
  cbn [app length].
  (* master_df_copy[[...]] *)
  rewrite !bind_assoc.
  erewrite bind_ok by (apply deref_new; reflexivity).
  rewrite bind_assoc. unfold bind at 1. rewrite lift_eq.
  destruct (Pandas.getitem_list [mk; v] Mf) as [sel|e|];
    cbn [outcome_bind]; [|by eexists..].
  rewrite (bind_ok _ _ _ _ _ (alloc_new σ _ sel)).
  erewrite bind_ok by (apply df_copy_new; reflexivity).
  cbn [app length].
  (* the two key columns *)
  unfold bind at 1. erewrite inplace_new by reflexivity.
  destruct (Pandas.normalize_column mk sel) as [mapping|e|];
    cbn [outcome_bind]; [|by eexists..].
  unfold bind at 1. erewrite inplace_new by reflexivity.
  destruct (Pandas.normalize_column uk U) as [U'|e|];
    cbn [outcome_bind]; [|by eexists..].
  cbn [insert list_insert].
  (* drop_duplicates *)
  unfold bind at 1. erewrite inplace_new by reflexivity.
  destruct (Pandas.drop_duplicates mk mapping) as [mapping'|e|];
    cbn [outcome_bind]; [|by eexists..].
  cbn [insert list_insert].
  (* merge *)
  rewrite !bind_assoc.
  erewrite bind_ok by (apply deref_new; reflexivity).
  rewrite !bind_assoc.
  erewrite bind_ok by (apply deref_new; reflexivity).
  rewrite !bind_assoc.
  unfold bind at 1. rewrite lift_eq.
  destruct (Pandas.merge U' mapping' uk mk) as [res|e|];
    cbn [outcome_bind]; [|by eexists..].
  rewrite (bind_ok _ _ _ _ _ (alloc_new σ _ res)).
  cbn [app length].
  (* rename, drop, fillna *)
  unfold bind at 1. erewrite inplace_new by reflexivity.
  cbn [insert list_insert].
  destruct (decide (uk ≠ mk)).
  - unfold bind at 1. erewrite inplace_new by reflexivity.
    destruct (Pandas.drop mk _) as [res'|e|];
      cbn [outcome_bind]; [|by eexists..].
    cbn [insert list_insert].
    unfold bind at 1. erewrite inplace_new by reflexivity.
    destruct (Pandas.getitem_fillna _ _ res') as [res''|e|];
      cbn [outcome_bind]; [|by eexists..].
    eexists. split; [reflexivity|]. intros ? [= <-]. reflexivity.
  - cbn [outcome_bind]. unfold bind at 1, ret at 1.
    unfold bind at 1. erewrite inplace_new by reflexivity.
    destruct (Pandas.getitem_fillna _ _ (Pandas.rename v new_col_name res))
      as [res''|e|]; cbn [outcome_bind]; [|by eexists..].
    eexists. split; [reflexivity|]. intros ? [= <-]. reflexivity.
Qed.

End StoreFacts.

(** ** The merger on valid inputs *)

Module MergerFacts.
Import Pandas PandasFacts StoreFacts.

(** On valid inputs the handler runs to its end and the frame behind the
    reference it returns is [converted]; the store it started from is a
    prefix of the store it leaves. *)
Lemma convert_valid (σ : store) u m U Mf uk mk v :
  σ !! u = Some U → σ !! m = Some Mf → valid_inputs U Mf uk mk v →
  ∃ ν : store,
    convert u m uk mk v σ = (Ok (length σ + 4)%nat, σ ++ ν)
    ∧ (σ ++ ν) !! (length σ + 4)%nat = Some (converted U Mf uk mk v).
Proof.
  intros Hu Hm Hv.
  destruct (convert_store σ u m U Mf uk mk v Hu Hm) as (ν & Hrun & Hres).
  rewrite convert_frames_valid in Hrun, Hres by done.
  exists ν. split; [done|]. rewrite lookup_new. by apply Hres.
Qed.

(** Whatever the inputs, a table that the handler returns is the table
    that [convert_frames] computes. *)
Lemma converts_frames (σ : store) u m U Mf uk mk v res :
  σ !! u = Some U → σ !! m = Some Mf →
  converts σ u m uk mk v res ↔ convert_frames U Mf uk mk v = Ok res.
Proof.
  intros Hu Hm.
  destruct (convert_store σ u m U Mf uk mk v Hu Hm) as (ν & Hrun & Hres).
  unfold converts. rewrite Hrun. split.
  - intros (r & σ' & E & Hr).
    destruct (convert_frames U Mf uk mk v) as [res0|e|] eqn:E0;
      cbn [mbind outcome_bind] in E; [|done..].
    injection E as <- <-. rewrite lookup_new, (Hres res0 eq_refl) in Hr.
    congruence.
  - intros E. rewrite E. cbn [mbind outcome_bind]. eexists _, _.
    split; [done|]. rewrite lookup_new. by apply Hres.
Qed.

Lemma converts_valid (σ : store) u m U Mf uk mk v :
  σ !! u = Some U → σ !! m = Some Mf → valid_inputs U Mf uk mk v →
  converts σ u m uk mk v (converted U Mf uk mk v).
Proof.
  intros Hu Hm Hv. destruct (convert_valid σ u m U Mf uk mk v) as (ν & ? & ?);
    [done..|]. by eexists _, _.
Qed.

(** [converts] names one frame. *)
Lemma converts_inj (σ : store) u m uk mk v res res' :
  converts σ u m uk mk v res → converts σ u m uk mk v res' → res = res'.
Proof. intros (r & σ1 & E & H) (r' & σ2 & E' & H'). congruence. Qed.

Lemma first_match_first k ik pre x post :
  Forall (λ y, normalize_key (cell_at ik y) ≠ k) pre →
  normalize_key (cell_at ik x) = k →
  first_match k ik (pre ++ x :: post) = Some x.
Proof.
  intros Hpre Hx. unfold first_match. rewrite filter_app.
  assert (filter (λ r, normalize_key (cell_at ik r) = k) pre = []) as ->.
  { induction Hpre as [|y pre Hy Hpre IH]; [done|].
    by rewrite filter_cons, decide_False. }
  by rewrite filter_cons, decide_True.
Qed.

Lemma first_match_none k ik mrows :
  Forall (λ y, normalize_key (cell_at ik y) ≠ k) mrows →
  first_match k ik mrows = None.
Proof.
  intros H. unfold first_match.
  induction H as [|y l Hy H IH]; [done|].
  by rewrite filter_cons, decide_False.
Qed.

Lemma get_loc_app_l (c : string) (cols extra : list string) :
  c ∈ cols → get_loc c (cols ++ extra) = get_loc c cols.
Proof.
  intros Hin. unfold get_loc. rewrite get_locs_app.
  destruct (get_locs c cols) eqn:E; [|done].
  by apply get_locs_nil in E.
Qed.

Lemma get_loc_app_fresh (c : string) (cols : list string) :
  c ∉ cols → get_loc c (cols ++ [c]) = length cols.
Proof.
  intros Hin. unfold get_loc. rewrite get_locs_app, get_locs_notin by done.
  simpl. rewrite decide_True by done. simpl. lia.
Qed.

Lemma get_loc_inj (a b : string) (cols : list string) :
  a ∈ cols → b ∈ cols → get_loc a cols = get_loc b cols → a = b.
Proof.
  intros Ha Hb E. apply get_loc_lookup in Ha, Hb. rewrite E in Ha. congruence.
Qed.

Lemma cell_at_app_l i (r extra : list cell) :
  (i < length r)%nat → cell_at i (r ++ extra) = cell_at i r.
Proof. intros H. unfold cell_at. by rewrite lookup_app_l. Qed.

Lemma cell_at_app_last (r : list cell) x : cell_at (length r) (r ++ [x]) = x.
Proof. unfold cell_at. by rewrite list_lookup_middle. Qed.

Lemma cell_at_insert_ne i j x (r : list cell) :
  i ≠ j → cell_at j (<[i:=x]> r) = cell_at j r.
Proof. intros H. unfold cell_at. by rewrite list_lookup_insert_ne. Qed.

(** The output column of the result, row by row. *)
Lemma converted_output_column U Mf uk mk v :
  valid_inputs U Mf uk mk v →
  column new_col_name (converted U Mf uk mk v)
  = (λ r, output_cell
            (unmatched (get_loc uk (columns U)) (get_loc mk (columns Mf))
               (rows U) (rows Mf))
            (normalize_key (cell_at (get_loc uk (columns U)) r))
            (get_loc mk (columns Mf)) (get_loc v (columns Mf)) (rows Mf))
    <$> rows U.
Proof.
  intros ([HndU HlenU] & _ & Huk & _ & _ & _ & _ & _ & HnewU & _).
  unfold column, converted, column_at. cbn [columns rows].
  rewrite <- list_fmap_compose. apply Forall_fmap_ext.
  unfold result_columns. destruct (decide _) as [[_ ->]|_]; [done|].
  rewrite get_loc_app_fresh by done.
  eapply Forall_impl; [exact HlenU|]. intros r Hr. cbv beta in Hr. cbn [compose].
  unfold converted_row.
  rewrite <- Hr, <- (length_insert r (get_loc uk (columns U))
                       (normalize_key (cell_at (get_loc uk (columns U)) r))).
  apply cell_at_app_last.
Qed.

(** The key column of the result holds the normalized keys. *)
Lemma converted_key_column U Mf uk mk v :
  valid_inputs U Mf uk mk v →
  column uk (converted U Mf uk mk v) = normalize_key <$> column uk U.
Proof.
  intros ([HndU HlenU] & _ & Huk & _ & _ & _ & _ & _ & HnewU & _).
  unfold column, converted, column_at. cbn [columns rows].
  rewrite <- !list_fmap_compose. apply Forall_fmap_ext.
  unfold result_columns. destruct (decide _) as [[_ ->]|_]; [done|].
  rewrite get_loc_app_l by done.
  pose proof (get_loc_lt uk (columns U) Huk) as Hlt.
  eapply Forall_impl; [exact HlenU|]. intros r Hr. cbv beta in Hr. cbn [compose].
  unfold converted_row.
  rewrite cell_at_app_l by (rewrite length_insert; lia).
  apply cell_at_insert. lia.
Qed.

(** Every other data column of the result holds the data table's cells. *)
Lemma converted_other_column U Mf uk mk v c :
  valid_inputs U Mf uk mk v → c ∈ columns U → c ≠ uk →
  column c (converted U Mf uk mk v) = column c U.
Proof.
  intros ([HndU HlenU] & _ & Huk & _ & _ & _ & _ & _ & HnewU & _) Hc Hne.
  unfold column, converted, column_at. cbn [columns rows].
  rewrite <- !list_fmap_compose. apply Forall_fmap_ext.
  unfold result_columns. destruct (decide _) as [[_ ->]|_]; [done|].
  rewrite get_loc_app_l by done.
  pose proof (get_loc_lt c (columns U) Hc) as Hlt.
  eapply Forall_impl; [exact HlenU|]. intros r Hr. cbv beta in Hr. cbn [compose].
  unfold converted_row.
  rewrite cell_at_app_l by (rewrite length_insert; lia).
  apply cell_at_insert_ne. intros E. apply Hne. symmetry.
  by apply (get_loc_inj _ _ (columns U)).
Qed.

End MergerFacts.

(** ** The row count of the result, whatever the inputs *)

Module RowCount.
Import Pandas PandasFacts.

Lemma keep_first_keys {K} `{EqDecision K} (key : list cell → K) seen rs :
  NoDup (key <$> keep_first key seen rs)
  ∧ ∀ k, k ∈ key <$> keep_first key seen rs → k ∉ seen.
Proof.
  revert seen. induction rs as [|r rs IH]; intros seen; simpl.
  - split; [constructor|]. intros k Hk. by apply elem_of_nil in Hk.
  - destruct (decide (key r ∈ seen)) as [Hs|Hs]; [apply IH|].
    destruct (IH (key r :: seen)) as [Hnd Hout]. rewrite fmap_cons. split.
    + constructor; [|done]. intros Hin. apply (Hout _ Hin), list_elem_of_here.
    + intros k [->|Hk]%elem_of_cons; [done|].
      intros Hin. apply (Hout _ Hk). by apply list_elem_of_further.
Qed.

Lemma filter_zip_absent (k : cell) (ks : list cell) (xs : list (list cell)) :
  k ∉ ks → filter (λ p, p.1 = k) (zip ks xs) = [].
Proof.
  revert xs. induction ks as [|a ks IH]; intros [|x xs] Hk; try done.
  apply not_elem_of_cons in Hk as [Hne Hk]. cbn [zip_with].
  rewrite filter_cons, decide_False by (cbn; congruence). by apply IH.
Qed.

Lemma filter_zip_NoDup (k : cell) (ks : list cell) (xs : list (list cell)) :
  NoDup ks → (length (filter (λ p, p.1 = k) (zip ks xs)) ≤ 1)%nat.
Proof.
  intros Hnd. revert xs. induction Hnd as [|a ks Ha Hnd IH]; intros [|x xs];
    try (cbn; lia).
  cbn [zip_with]. rewrite filter_cons. destruct (decide _) as [E|E].
  - cbn in E. subst a. rewrite filter_zip_absent by done. cbn. lia.
  - apply IH.
Qed.

(** A left join on distinct right keys has one row per left row. *)
Lemma left_join_rows_length lkeys rkeys (lrows rrows : list (list cell)) w :
  NoDup rkeys →
  length (left_join_rows lkeys rkeys lrows rrows w) = length (zip lkeys lrows).
Proof.
  intros Hnd. unfold left_join_rows.
  induction (zip lkeys lrows) as [|l ls IH]; [done|].
  rewrite bind_cons, length_app, IH. cbn [length]. f_equal.
  pose proof (filter_zip_NoDup l.1 rkeys rrows Hnd) as Hle.
  destruct (filter _ (zip rkeys rrows)) as [|p [|q t]]; cbn in *; lia.
Qed.

Lemma getitem_list_nrows labels df sel :
  getitem_list labels df = Ok sel → length (rows sel) = length (rows df).
Proof.
  unfold getitem_list. destruct (filter _ labels).
  - intros [= <-]. cbn. by rewrite length_fmap.
  - by destruct (decide _).
Qed.

Lemma normalize_column_frame label df df' :
  normalize_column label df = Ok df' →
  columns df' = columns df ∧ length (rows df') = length (rows df).
Proof.
  unfold normalize_column, getitem_astype_str, select, setitem.
  destruct (get_locs label (columns df)) as [|i [|i' locs]];
    cbn [mbind outcome_bind]; [done| |done].
  intros [= <-]. cbn [columns rows]. split; [done|].
  rewrite length_zip_with, !length_fmap. unfold column_at. rewrite length_fmap. lia.
Qed.

Lemma drop_duplicates_frame label df df' j :
  drop_duplicates label df = Ok df' →
  get_locs label (columns df') = [j] →
  NoDup (column_at j (rows df')) ∧ (length (rows df') ≤ length (rows df))%nat.
Proof.
  unfold drop_duplicates.
  destruct (get_locs label (columns df)) as [|i locs] eqn:E; [done|].
  intros [= <-]. cbn [columns rows]. intros Hj. rewrite E in Hj.
  injection Hj as -> ->. split; [|apply keep_first_length].
  destruct (keep_first_keys (λ r, (λ i, cell_at i r) <$> [j]) [] (rows df))
    as [Hnd _].
  unfold column_at.
  apply (NoDup_fmap_1 (λ c : cell, [c])). by rewrite <- list_fmap_compose.
Qed.

Lemma merge_nrows left right left_on right_on res :
  merge left right left_on right_on = Ok res →
  (∀ j, get_locs right_on (columns right) = [j] →
        NoDup (column_at j (rows right))) →
  length (rows res) = length (rows left).
Proof.
  unfold merge, select. intros Hm Hnd.
  destruct (get_locs right_on (columns right)) as [|j [|j' lr]]; [done| |done].
  destruct (get_locs left_on (columns left)) as [|i [|i' ll]]; [done| |done].
  specialize (Hnd j eq_refl).
  assert (∀ l r rrows,
    length (rows l) = length (rows left) →
    match items_overlap_with_suffix (columns l) (columns r) with
    | Ok (llabels, rlabels) =>
        Ok {| columns := llabels ++ rlabels;
              rows := left_join_rows (column_at i (rows left))
                        (column_at j (rows right)) (rows l) rrows
                        (length (columns r)) |}
    | Raise e => Raise e
    | Undefined => Undefined
    end = Ok res → length (rows res) = length (rows left)) as H.
  { intros l r rrows Hl.
    destruct (items_overlap_with_suffix _ _) as [[ll rl]|e|]; [|done..].
    intros [= <-]. cbn [rows]. rewrite left_join_rows_length by done.
    rewrite length_zip_with. unfold column_at. rewrite length_fmap. lia. }
  destruct (decide (left_on = right_on)); [destruct (decide _)|];
    (eapply H; [|exact Hm]); unfold without_label; cbn [rows];
    by rewrite ?length_fmap.
Qed.

(** Whatever the inputs, a table that the pipeline returns has one row
    per row of the data table. *)
Lemma convert_frames_nrows U Mf uk mk v res :
  convert_frames U Mf uk mk v = Ok res → length (rows res) = length (rows U).
Proof.
  unfold convert_frames.
  destruct (getitem_list [mk; v] Mf) as [sel|e|]; cbn [mbind outcome_bind];
    [|done..].
  destruct (normalize_column mk sel) as [mapping|e|] eqn:E1;
    cbn [mbind outcome_bind]; [|done..].
  destruct (normalize_column uk U) as [U'|e|] eqn:E2;
    cbn [mbind outcome_bind]; [|done..].
  destruct (drop_duplicates mk mapping) as [mapping'|e|] eqn:E3;
    cbn [mbind outcome_bind]; [|done..].
  destruct (merge U' mapping' uk mk) as [merged|e|] eqn:E4;
    cbn [mbind outcome_bind]; [|done..].
  apply normalize_column_frame in E2 as [_ HU'].
  apply merge_nrows in E4.
  2:{ intros j Hj. by destruct (drop_duplicates_frame _ _ _ j E3 Hj). }
  assert (∀ df, length (rows df) = length (rows U) →
            getitem_fillna new_col_name (CText NOT_FOUND) df = Ok res →
            length (rows res) = length (rows U)) as Hfill.
  { intros df Hdf. unfold getitem_fillna.
    destruct (select _ _); [done| |done]. intros [= <-]. cbn [rows].
    by rewrite length_fmap. }
  destruct (decide (uk ≠ mk)).
  - unfold drop. destruct (decide _); cbn [mbind outcome_bind]; [|done].
    apply Hfill. unfold without_label, rename. cbn [rows].
    rewrite length_fmap. congruence.
  - cbn [mbind outcome_bind]. apply Hfill. unfold rename. cbn [rows]. congruence.
Qed.

End RowCount.

Import Pandas PandasFacts StoreFacts MergerFacts RowCount PyStrFacts.

(** ** The properties of the merger *)

(** Closes a goal that a decision procedure settles by evaluation. *)
Ltac by_evaluation :=
  match goal with |- ?P => apply (bool_decide_unpack P) end; vm_compute; exact I.

(** Runs the handler on a closed store. *)
Ltac run_closed := eexists _, _; split; vm_compute; reflexivity.

(** C1, as stated, fails: on the inputs of the worked example the handler
    returns a table, and its rows are not the two rows of the example. *)
Lemma worked_example_differs :
  ∃ res, converts [ex_data; ex_master] 0 1 "Part" "E" "New" res
         ∧ rows res ≠ [[CText "a1 "; CText "X1"];
                       [CText "C3"; CText "--- NOT FOUND ---"]].
Proof.
  eexists. split; [run_closed|]. discriminate.
Qed.

(** C1, amended.  On the inputs of the worked example the result has the
    two rows in order, the key cells normalized and both output cells the
    sentinel, since "a1" is not "A1".  With the key "A1 " in the data the
    first row is "A1" and "X1", the value of the first of the two master
    rows keyed "A1". *)
Theorem worked_example :
  converts [ex_data; ex_master] 0 1 "Part" "E" "New"
    {| columns := ["Part"; "Converted Part Number"];
       rows := [[CText "a1"; CText "--- NOT FOUND ---"];
                [CText "C3"; CText "--- NOT FOUND ---"]] |}
  ∧ converts [ex_data_upper; ex_master] 0 1 "Part" "E" "New"
      {| columns := ["Part"; "Converted Part Number"];
         rows := [[CText "A1"; CText "X1"];
                  [CText "C3"; CText "--- NOT FOUND ---"]] |}.
Proof. split; run_closed. Qed.

Lemma output_at (σ : store) u m U Mf uk mk v n r :
  σ !! u = Some U → σ !! m = Some Mf → valid_inputs U Mf uk mk v →
  rows U !! n = Some r →
  ∃ res, converts σ u m uk mk v res
    ∧ column new_col_name res !! n
      = Some (output_cell
                (unmatched (get_loc uk (columns U)) (get_loc mk (columns Mf))
                   (rows U) (rows Mf))
                (normalize_key (cell_at (get_loc uk (columns U)) r))
                (get_loc mk (columns Mf)) (get_loc v (columns Mf)) (rows Mf)).
Proof.
  intros Hu Hm Hv Hr. eexists. split; [by eapply converts_valid|].
  rewrite converted_output_column by done.
  by rewrite list_lookup_fmap, Hr.
Qed.

Lemma output_absent (σ : store) u m U Mf uk mk v n r :
  σ !! u = Some U → σ !! m = Some Mf → valid_inputs U Mf uk mk v →
  rows U !! n = Some r →
  Forall (λ x, normalize_key (cell_at (get_loc mk (columns Mf)) x)
               ≠ normalize_key (cell_at (get_loc uk (columns U)) r))
    (rows Mf) →
  ∃ res, converts σ u m uk mk v res
    ∧ column new_col_name res !! n = Some (CText NOT_FOUND).
Proof.
  intros Hu Hm Hv Hr Habs.
  destruct (output_at σ u m U Mf uk mk v n r) as (res & Hres & Hout); [done..|].
  exists res. split; [done|]. rewrite Hout. unfold output_cell.
  by rewrite first_match_none.
Qed.

Lemma output_first (σ : store) u m U Mf uk mk v n r pre x post :
  σ !! u = Some U → σ !! m = Some Mf → valid_inputs U Mf uk mk v →
  rows U !! n = Some r →
  rows Mf = pre ++ x :: post →
  Forall (λ y, normalize_key (cell_at (get_loc mk (columns Mf)) y)
               ≠ normalize_key (cell_at (get_loc uk (columns U)) r)) pre →
  normalize_key (cell_at (get_loc mk (columns Mf)) x)
  = normalize_key (cell_at (get_loc uk (columns U)) r) →
  ∃ res, converts σ u m uk mk v res
    ∧ column new_col_name res !! n
      = Some (fillna (CText NOT_FOUND)
                (merged_value
                   (unmatched (get_loc uk (columns U)) (get_loc mk (columns Mf))
                      (rows U) (rows Mf))
                   (cell_at (get_loc v (columns Mf)) x))).
Proof.
  intros Hu Hm Hv Hr HM Hpre Hk.
  destruct (output_at σ u m U Mf uk mk v n r) as (res & Hres & Hout); [done..|].
  exists res. split; [done|]. rewrite Hout. unfold output_cell.
  by rewrite HM, (first_match_first _ _ pre x).
Qed.

(** The lookup hands on a cell as it is, unless it is an integer of an
    integer column and some data row is unmatched; and a missing cell stays
    missing. *)
Lemma merged_value_same up c :
  up = false ∨ (∀ z, c ≠ CInt z) → merged_value up c = c.
Proof.
  intros [->|H]; [done|]. unfold merged_value, upcast.
  destruct up; [|done]. destruct c; try done. by destruct (H z).
Qed.

Lemma merged_value_missing up c : merged_value up c = CMissing ↔ c = CMissing.
Proof. unfold merged_value, upcast. by destruct up, c. Qed.

(** C2, as stated, fails.  The data table has a column with the master's
    value label and a column with the output label; the first of the two
    master rows keyed "A1" has the value "X1".  The handler returns a table
    whose output column holds, for the data row keyed "A1", the filled cell
    of the data table's own column, and "X1" stands under "New_y". *)
Lemma first_wins_differs :
  ∃ res, converts [ex_data_collide; ex_master] 0 1 "Part" "E" "New" res
    ∧ columns res = ["Part"; "New_x"; "Converted Part Number"; "New_y"]
    ∧ column new_col_name res !! 0%nat = Some (CText "--- NOT FOUND ---")
    ∧ column new_col_name res !! 0%nat ≠ Some (CText "X1")
    ∧ column "New_y" res !! 0%nat = Some (CText "X1").
Proof. eexists. split; [run_closed|]. split_and!; by_evaluation. Qed.

(** C2, amended.  On valid inputs, let the master hold a row [x1] and,
    after it, a row [x2] with the same normalized key, [x1] being the first
    row with that key, both carrying a value and the two values different.
    Then for every data row with that normalized key the output cell is the
    value of [x1] as the lookup hands it on.  That is the value cell of [x1]
    itself, and so not the one of [x2], unless the cell is an integer of an
    integer column and some data row is unmatched: it is then the float
    nearest to that integer. *)
Theorem first_wins_dedup (σ : store) u m U Mf uk mk v n r pre x1 mid x2 post :
  let iu := get_loc uk (columns U) in
  let ik := get_loc mk (columns Mf) in
  let iv := get_loc v (columns Mf) in
  let up := unmatched iu ik (rows U) (rows Mf) in
  σ !! u = Some U → σ !! m = Some Mf → valid_inputs U Mf uk mk v →
  rows Mf = pre ++ x1 :: mid ++ x2 :: post →
  Forall (λ x, normalize_key (cell_at ik x) ≠ normalize_key (cell_at ik x1)) pre →
  normalize_key (cell_at ik x2) = normalize_key (cell_at ik x1) →
  cell_at iv x1 ≠ CMissing →
  cell_at iv x1 ≠ cell_at iv x2 →
  rows U !! n = Some r →
  normalize_key (cell_at iu r) = normalize_key (cell_at ik x1) →
  ∃ res, converts σ u m uk mk v res
    ∧ column new_col_name res !! n = Some (merged_value up (cell_at iv x1))
    ∧ (up = false ∨ (∀ z, cell_at iv x1 ≠ CInt z) →
       column new_col_name res !! n = Some (cell_at iv x1)
       ∧ column new_col_name res !! n ≠ Some (cell_at iv x2))
    ∧ (∀ z, cell_at iv x1 = CInt z → up = true →
       column new_col_name res !! n = Some (CFloat (PyFloat.of_int z))).
Proof.
  intros iu ik iv up Hu Hm Hv HM Hpre Hk2 Hv1 Hne Hr Hk.
  rewrite <- Hk in Hpre.
  destruct (output_first σ u m U Mf uk mk v n r pre x1 (mid ++ x2 :: post))
    as (res & Hres & Hout); [done..|].
  exists res. split; [done|]. fold iu ik iv up in Hout.
  assert (column new_col_name res !! n = Some (merged_value up (cell_at iv x1)))
    as E.
  { rewrite Hout. f_equal.
    destruct (merged_value up (cell_at iv x1)) eqn:Em; try done.
    by apply merged_value_missing in Em. }
  split; [done|]. split.
  - intros Hsame. rewrite E, merged_value_same by done. split; congruence.
  - intros z Ez ->. by rewrite E, Ez.
Qed.

(** C3, as stated, fails.  Two well-formed tables whose selected columns
    exist, the data table having a column with the master's value label:
    the handler raises, so there is no result with the rows of the data
    table. *)
Lemma row_count_no_result :
  wf ex_data_value_label ∧ wf ex_master
  ∧ "Part" ∈ columns ex_data_value_label
  ∧ "E" ∈ columns ex_master ∧ "New" ∈ columns ex_master
  ∧ (∃ σ', convert 0 1 "Part" "E" "New" [ex_data_value_label; ex_master]
           = (Raise (key_error "Converted Part Number"), σ'))
  ∧ ¬ ∃ res, converts [ex_data_value_label; ex_master] 0 1 "Part" "E" "New" res.
Proof.
  split_and!; try by_evaluation.
  - eexists. vm_compute. reflexivity.
  - intros (res & r & σ' & E & _). vm_compute in E. discriminate.
Qed.

(** C3, amended.  Whatever the tables and the selections, a table that
    the handler returns has as many rows as the data table, whatever keys
    the master repeats.  On valid inputs the handler does return a table,
    and row [n] of it is row [n] of the data table with its key cell
    normalized, followed by one output cell. *)
Theorem row_count_preserved (σ : store) u m U Mf uk mk v :
  let iu := get_loc uk (columns U) in
  σ !! u = Some U → σ !! m = Some Mf →
  (∀ res, converts σ u m uk mk v res → length (rows res) = length (rows U))
  ∧ (valid_inputs U Mf uk mk v →
     ∃ res, converts σ u m uk mk v res
       ∧ length (rows res) = length (rows U)
       ∧ ∀ n r, rows U !! n = Some r →
           ∃ out, rows res !! n
                  = Some (<[iu:=normalize_key (cell_at iu r)]> r ++ [out])).
Proof.
  intros iu Hu Hm. split.
  - intros res Hres. apply (converts_frames σ u m U Mf) in Hres; [|done..].
    by eapply convert_frames_nrows.
  - intros Hv. eexists. split; [by eapply converts_valid|].
    unfold converted. cbn [rows]. split; [by rewrite length_fmap|].
    intros n r Hr. rewrite list_lookup_fmap, Hr. by eexists.
Qed.

(** C4, as stated, fails.  The data table has a column with the master's
    value label and a column with the output label.  The key "C3" is the
    key of no master row, and the output column of the returned table holds
    for that row what the data table's own column held. *)
Lemma not_found_differs :
  ∃ res, converts [ex_data_collide; ex_master] 0 1 "Part" "E" "New" res
    ∧ rows ex_data_collide !! 1%nat
      = Some [CText "C3"; CText "n2"; CText "old"]
    ∧ Forall (λ x, normalize_key (cell_at 0 x) ≠ normalize_key (CText "C3"))
        (rows ex_master)
    ∧ column new_col_name res !! 1%nat = Some (CText "old")
    ∧ column new_col_name res !! 1%nat ≠ Some (CText "--- NOT FOUND ---").
Proof. eexists. split; [run_closed|]. split_and!; by_evaluation. Qed.

(** C4, amended.  On valid inputs the handler returns (it does not raise),
    and for every data row whose normalized key is the normalized key of no
    master row the output cell is the text "--- NOT FOUND ---". *)
Theorem not_found_sentinel (σ : store) u m U Mf uk mk v n r :
  let iu := get_loc uk (columns U) in
  let ik := get_loc mk (columns Mf) in
  σ !! u = Some U → σ !! m = Some Mf → valid_inputs U Mf uk mk v →
  rows U !! n = Some r →
  Forall (λ x, normalize_key (cell_at ik x) ≠ normalize_key (cell_at iu r))
    (rows Mf) →
  ∃ res, converts σ u m uk mk v res
    ∧ column new_col_name res !! n = Some (CText "--- NOT FOUND ---").
Proof. intros iu ik. apply output_absent. Qed.

(** C10, as stated, fails.  The data table has a column with the
    master's value label and a column with the output label.  The key "B2"
    is matched with a master row whose value cell is missing, and the
    output column of the returned table holds for that row what the data
    table's own column held. *)
Lemma missing_value_differs :
  ∃ res, converts [ex_data_collide; ex_master_mixed] 0 1 "Part" "E" "New" res
    ∧ rows ex_data_collide !! 2%nat
      = Some [CText "B2"; CText "n3"; CText "kept"]
    ∧ first_match (normalize_key (CText "B2")) 0 (rows ex_master_mixed)
      = Some [CText "B2"; CMissing]
    ∧ column new_col_name res !! 2%nat = Some (CText "kept")
    ∧ column new_col_name res !! 2%nat ≠ Some (CText "--- NOT FOUND ---").
Proof. eexists. split; [run_closed|]. split_and!; by_evaluation. Qed.

(** C10, amended.  On valid inputs, a data row whose normalized key is
    that of a master row, the first with that key, whose value cell is
    missing, gets the text "--- NOT FOUND ---" in the output column: the
    same cell as a data row whose key is the key of no master row. *)
Theorem missing_value_sentinel (σ : store) u m U Mf uk mk v n r pre x post :
  let iu := get_loc uk (columns U) in
  let ik := get_loc mk (columns Mf) in
  let iv := get_loc v (columns Mf) in
  σ !! u = Some U → σ !! m = Some Mf → valid_inputs U Mf uk mk v →
  rows U !! n = Some r →
  rows Mf = pre ++ x :: post →
  Forall (λ y, normalize_key (cell_at ik y) ≠ normalize_key (cell_at iu r)) pre →
  normalize_key (cell_at ik x) = normalize_key (cell_at iu r) →
  cell_at iv x = CMissing →
  ∃ res, converts σ u m uk mk v res
    ∧ column new_col_name res !! n = Some (CText "--- NOT FOUND ---")
    ∧ ∀ n' r', rows U !! n' = Some r' →
        Forall (λ y, normalize_key (cell_at ik y) ≠ normalize_key (cell_at iu r'))
          (rows Mf) →
        column new_col_name res !! n' = column new_col_name res !! n.
Proof.
  intros iu ik iv Hu Hm Hv Hr HM Hpre Hk Hmiss.
  destruct (output_first σ u m U Mf uk mk v n r pre x post)
    as (res & Hres & Hout); [done..|].
  exists res. split; [done|]. fold iv in Hout. rewrite Hmiss in Hout.
  assert (column new_col_name res !! n = Some (CText NOT_FOUND)) as Hout'.
  { rewrite Hout. f_equal. by destruct (unmatched _ _ _ _). }
  clear Hout. rename Hout' into Hout.
  split; [done|]. intros n' r' Hr' Habs. rewrite Hout.
  destruct (output_absent σ u m U Mf uk mk v n' r')
    as (res' & Hres' & Hout'); [done..|].
  by rewrite (converts_inj _ _ _ _ _ _ _ _ Hres Hres').
Qed.

(** C5, as stated, fails for a number held as a float.  A key column of
    whole numbers with a blank cell is a float column: the key 42 is the
    float 42.0, its normalized key is "42.0", and the handler, on valid
    inputs, does not match it with the master key " 42 ". *)
Lemma numeric_key_differs :
  valid_inputs ex_data_float ex_master_mixed "Part" "E" "New"
  ∧ normalize_key (CFloat 42) = CText "42.0"
  ∧ normalize_key (CFloat 42) ≠ normalize_key (CText " 42 ")
  ∧ ∃ res, converts [ex_data_float; ex_master_mixed] 0 1 "Part" "E" "New" res
      ∧ column new_col_name res !! 0%nat = Some (CText "--- NOT FOUND ---").
Proof.
  split_and!; try by_evaluation. eexists. split; [run_closed|]. by_evaluation.
Qed.

(** C5, amended.  The handler applies one function, [normalize_key], to
    the key cells of both tables.  Whitespace around a text does not change
    its normalized key; an integer, of an integer column or of an object
    column, and any text that is its decimal form within whitespace have
    the same normalized key, as 42 and " 42 " do.  A float is another
    matter: below 1e16 the normalized key of the float with the whole value
    [z] is the decimal form of [z] followed by ".0", which is the normalized
    key of no integer.  On valid inputs a data row whose key has the
    normalized key of a master row is matched: its output cell is the value
    of the first such master row as the lookup hands it on (the sentinel if
    that value is missing). *)
Theorem key_normalization :
  (∀ l s r, PyStr.blank l = true → PyStr.blank r = true →
     normalize_key (CText (l +:+ s +:+ r)) = normalize_key (CText s))
  ∧ (∀ l z r, PyStr.blank l = true → PyStr.blank r = true →
       normalize_key (CText (l +:+ PyStr.of_int z +:+ r)) = normalize_key (CInt z)
       ∧ normalize_key (CPyInt z) = normalize_key (CInt z))
  ∧ normalize_key (CInt 42) = normalize_key (CText " 42 ")
  ∧ (∀ z z', (Z.abs z < 10 ^ 16)%Z →
       normalize_key (CFloat z) = CText (PyStr.of_int z +:+ ".0")
       ∧ normalize_key (CFloat z) ≠ normalize_key (CInt z'))
  ∧ ∀ (σ : store) u m U Mf uk mk v n r pre x post,
      σ !! u = Some U → σ !! m = Some Mf → valid_inputs U Mf uk mk v →
      rows U !! n = Some r →
      rows Mf = pre ++ x :: post →
      Forall (λ y, normalize_key (cell_at (get_loc mk (columns Mf)) y)
                   ≠ normalize_key (cell_at (get_loc uk (columns U)) r)) pre →
      normalize_key (cell_at (get_loc uk (columns U)) r)
      = normalize_key (cell_at (get_loc mk (columns Mf)) x) →
      ∃ res, converts σ u m uk mk v res
        ∧ column new_col_name res !! n
          = Some (fillna (CText NOT_FOUND)
                    (merged_value
                       (unmatched (get_loc uk (columns U))
                          (get_loc mk (columns Mf)) (rows U) (rows Mf))
                       (cell_at (get_loc v (columns Mf)) x))).
Proof.
  split_and!.
  - intros l s r Hl Hr. unfold normalize_key. simpl.
    by rewrite strip_pad.
  - intros l z r Hl Hr. unfold normalize_key. simpl.
    by rewrite strip_pad, strip_of_int.
  - reflexivity.
  - intros z z' Hz.
    assert (normalize_key (CFloat z) = CText (PyStr.of_int z +:+ ".0")) as E.
    { unfold normalize_key, astype_str, str_strip, PyFloat.repr.
      apply Z.ltb_lt in Hz. rewrite Hz. by rewrite strip_float_text. }
    split; [done|]. rewrite E. unfold normalize_key. simpl.
    rewrite strip_of_int. intros [= H]. by apply float_text in H.
  - intros. by eapply output_first.
Qed.

Lemma filter_ne_perm (c : string) (cols : list string) :
  NoDup cols → c ∈ cols → filter (λ x, x ≠ c) cols ++ [c] ≡ₚ cols.
Proof.
  intros Hnd. induction Hnd as [|a cols Ha Hnd IH]; intros Hin.
  - by apply elem_of_nil in Hin.
  - rewrite filter_cons. destruct (decide (a = c)) as [->|Hne].
    + rewrite decide_False by (intros H; by apply H).
      rewrite filter_ne_fresh by done. symmetry. apply Permutation_cons_append.
    + rewrite decide_True by done.
      apply elem_of_cons in Hin as [->|Hin]; [done|].
      simpl. by rewrite IH.
Qed.

Lemma result_columns_perm U Mf uk mk v :
  valid_inputs U Mf uk mk v →
  result_columns U uk mk ≡ₚ columns U ++ [new_col_name].
Proof.
  intros ([HndU _] & _ & Huk & _). unfold result_columns.
  destruct (decide _); [|done].
  change [uk; new_col_name] with ([uk] ++ [new_col_name]).
  by rewrite app_assoc, filter_ne_perm.
Qed.



(** C7, as stated, fails: the key column of the result holds the
    normalized keys, not the cells of the data table.  And on a data table
    that has the master's value label and the output label, the column
    "New" is no column of the result and the blank cell of the column
    "Converted Part Number" is filled. *)
Lemma key_column_differs :
  (∃ res, converts [ex_data; ex_master] 0 1 "Part" "E" "New" res
          ∧ column "Part" res ≠ column "Part" ex_data)
  ∧ (∃ res, converts [ex_data_collide; ex_master] 0 1 "Part" "E" "New" res
            ∧ ("New" ∉ columns res)
            ∧ column "Converted Part Number" res
              ≠ column "Converted Part Number" ex_data_collide).
Proof.
  split; eexists; (split; [run_closed|]).
  - discriminate.
  - split; by_evaluation.
Qed.

(** C7, amended.  Whatever the selections and the outcome, the store the
    handler leaves extends the store it started from: the two input frames
    are untouched.  On valid inputs every data column but the key column
    holds in the result the cells it holds in the data table, in row order;
    the key column holds their normalized keys, in row order; and the one
    other column of the result is the output column. *)
Theorem data_columns_preserved (σ : store) u m U Mf uk mk v :
  σ !! u = Some U → σ !! m = Some Mf →
  (∃ o ν, convert u m uk mk v σ = (o, σ ++ ν))
  ∧ (valid_inputs U Mf uk mk v →
     ∃ r σ' res,
       convert u m uk mk v σ = (Ok r, σ') ∧ σ' !! r = Some res
       ∧ σ' !! u = Some U ∧ σ' !! m = Some Mf
       ∧ (∀ c, c ∈ columns U → c ≠ uk → column c res = column c U)
       ∧ column uk res = normalize_key <$> column uk U
       ∧ columns res ≡ₚ columns U ++ [new_col_name]).
Proof.
  intros Hu Hm. split.
  - destruct (convert_store σ u m U Mf uk mk v Hu Hm) as (ν & Hrun & _).
    by eexists _, ν.
  - intros Hv.
    destruct (convert_valid σ u m U Mf uk mk v Hu Hm Hv) as (ν & Hrun & Hres).
    eexists _, _, _. split; [exact Hrun|]. split; [exact Hres|].
    split; [by apply lookup_app_l_Some|]. split; [by apply lookup_app_l_Some|].
    split; [|split].
    + intros c Hc Hne. by apply converted_other_column.
    + by apply converted_key_column.
    + by eapply result_columns_perm.
Qed.

(** ** Outside the valid inputs *)

(** A selection that is no column of its table is a [KeyError]: of the
    projection for a label of the master, of the selection for the label
    of the data table. *)
Example missing_key_column :
  convert_frames ex_data ex_master "Part" "Nope" "New"
  = Raise (key_error "['Nope'] not in index")
  ∧ convert_frames ex_data ex_master "Nope" "E" "New" = Raise (key_error "Nope").
Proof. split; reflexivity. Qed.

(** One master column selected as key and as value: the projection has
    the label twice and the handler stops at [.str]. *)
Example same_master_columns :
  convert_frames ex_data ex_master "Part" "E" "E"
  = Raise (AttributeError "'DataFrame' object has no attribute 'str'").
Proof. reflexivity. Qed.

(** A data label equal to the master's value label: the merge suffixes
    both, the rename finds nothing and the output label is missing. *)
Example value_label_collision :
  convert_frames ex_data_value_label ex_master "Part" "E" "New"
  = Raise (key_error "Converted Part Number").
Proof. reflexivity. Qed.

(** A data label, not the key, equal to the master's key label: the merge
    suffixes both and the drop finds nothing. *)
Example key_label_collision :
  convert_frames ex_data_key_label ex_master "Part" "E" "New"
  = Raise (key_error "['E'] not found in axis").
Proof. reflexivity. Qed.

(** An integer column of the master next to an unmatched data key: the
    values come out as floats, and 9007199254740993 as the float
    9007199254740992.0.  When every data key is matched they stay
    integers. *)
Example integer_values_upcast :
  (∃ res, converts [ex_data_upper; ex_master_int] 0 1 "Part" "E" "New" res
          ∧ column new_col_name res
            = [CFloat 9007199254740992; CText "--- NOT FOUND ---"])
  ∧ (∃ res, converts [ex_data_twice; ex_master_int] 0 1 "Part" "E" "New" res
            ∧ column new_col_name res
              = [CInt 9007199254740993; CInt 9007199254740993]).
Proof. split; (eexists; split; [run_closed|reflexivity]). Qed.

(** A data table that already has the output label: the result has the
    label twice and the fill goes through a sub-frame. *)
Example output_label_collision :
  convert_frames ex_data_output_label ex_master "Part" "E" "New" = Undefined.
Proof. reflexivity. Qed.

(** ** The theorems at concrete inputs *)

Lemma first_wins_dedup_witness :
  valid_inputs ex_data_upper ex_master "Part" "E" "New"
  ∧ ∃ res, converts [ex_data_upper; ex_master] 0 1 "Part" "E" "New" res
      ∧ column new_col_name res !! 0%nat = Some (CText "X1")
      ∧ column new_col_name res !! 0%nat ≠ Some (CText "X2").
Proof.
  assert (valid_inputs ex_data_upper ex_master "Part" "E" "New") as Hv
    by by_evaluation.
  split; [exact Hv|].
  destruct (first_wins_dedup [ex_data_upper; ex_master] 0 1 ex_data_upper
              ex_master "Part" "E" "New" 0 [CText "A1 "]
              [] [CText "A1"; CText "X1"] [] [CText "A1"; CText "X2"]
              [[CText "B2"; CText "Y1"]])
    as (res & Hres & _ & Hsame & _);
    first [reflexivity | exact Hv | by constructor | discriminate | idtac].
  exists res. split; [exact Hres|]. apply Hsame. by right.
Defined.

Lemma row_count_preserved_witness :
  valid_inputs ex_data ex_master "Part" "E" "New"
  ∧ ∃ res, converts [ex_data; ex_master] 0 1 "Part" "E" "New" res
      ∧ length (rows res) = 2%nat.
Proof.
  assert (valid_inputs ex_data ex_master "Part" "E" "New") as Hv
    by by_evaluation.
  split; [exact Hv|].
  destruct (row_count_preserved [ex_data; ex_master] 0 1 ex_data ex_master
              "Part" "E" "New" eq_refl eq_refl) as [_ H].
  destruct (H Hv) as (res & Hres & Hlen & _).
  exists res. split; [exact Hres|exact Hlen].
Defined.

Lemma not_found_sentinel_witness :
  valid_inputs ex_data ex_master "Part" "E" "New"
  ∧ ∃ res, converts [ex_data; ex_master] 0 1 "Part" "E" "New" res
      ∧ column new_col_name res !! 1%nat = Some (CText "--- NOT FOUND ---").
Proof.
  assert (valid_inputs ex_data ex_master "Part" "E" "New") as Hv
    by by_evaluation.
  split; [exact Hv|].
  apply (not_found_sentinel [ex_data; ex_master] 0 1 ex_data ex_master
           "Part" "E" "New" 1 [CText "C3"]);
    first [reflexivity | exact Hv | by_evaluation].
Defined.

Lemma missing_value_sentinel_witness :
  valid_inputs ex_data_b2 ex_master_mixed "Part" "E" "New"
  ∧ ∃ res, converts [ex_data_b2; ex_master_mixed] 0 1 "Part" "E" "New" res
      ∧ column new_col_name res !! 0%nat = Some (CText "--- NOT FOUND ---").
Proof.
  assert (valid_inputs ex_data_b2 ex_master_mixed "Part" "E" "New") as Hv
    by by_evaluation.
  split; [exact Hv|].
  destruct (missing_value_sentinel [ex_data_b2; ex_master_mixed] 0 1
              ex_data_b2 ex_master_mixed "Part" "E" "New" 0 [CText "B2"]
              [[CText " 42 "; CText "N42"]] [CText "B2"; CMissing]
              [[CText "B2"; CText "Y1"]])
    as (res & Hres & Hout & _);
    first [reflexivity | exact Hv | by_evaluation | idtac].
  exists res. split; [exact Hres|exact Hout].
Defined.

Lemma key_normalization_witness :
  valid_inputs ex_data_same ex_master_mixed "E" "E" "New"
  ∧ normalize_key (CText " 42 ") = normalize_key (CText "42")
  ∧ ∃ res, converts [ex_data_same; ex_master_mixed] 0 1 "E" "E" "New" res
      ∧ column new_col_name res !! 0%nat = Some (CText "N42").
Proof.
  assert (valid_inputs ex_data_same ex_master_mixed "E" "E" "New") as Hv
    by by_evaluation.
  destruct key_normalization as (Hpad & _ & _ & _ & Hmatch).
  split; [exact Hv|]. split.
  - apply (Hpad " " "42" " "); reflexivity.
  - apply (Hmatch [ex_data_same; ex_master_mixed] 0%nat 1%nat ex_data_same
             ex_master_mixed "E" "E" "New" 0%nat [CInt 42; CInt 3]
             [] [CText " 42 "; CText "N42"]
             [[CText "B2"; CMissing]; [CText "B2"; CText "Y1"]]);
      first [reflexivity | exact Hv | by constructor].
Defined.


Lemma data_columns_preserved_witness :
  valid_inputs ex_data ex_master "Part" "E" "New"
  ∧ ∃ r σ' res,
      convert 0 1 "Part" "E" "New" [ex_data; ex_master] = (Ok r, σ')
      ∧ σ' !! r = Some res
      ∧ σ' !! 0%nat = Some ex_data ∧ σ' !! 1%nat = Some ex_master
      ∧ column "Part" res = [CText "a1"; CText "C3"].
Proof.
  assert (valid_inputs ex_data ex_master "Part" "E" "New") as Hv
    by by_evaluation.
  split; [exact Hv|].
  destruct (data_columns_preserved [ex_data; ex_master] 0 1 ex_data ex_master
              "Part" "E" "New" eq_refl eq_refl) as [_ H].
  destruct (H Hv) as (r & σ' & res & Hrun & Hres & H0 & H1 & _ & Hkey & _).
  exists r, σ', res. repeat (split; [assumption|]). exact Hkey.
Defined.

Lemma xlrd_retry_iff_witness :
  PyStr.endswith_any (PyStr.lower "Parts.XLSX") [".xlsx"; ".xlsm"; ".xls"] = true
  ∧ ∃ r s' evs,
      load_data_file ex_reader {| name := "Parts.XLSX"; data := "xx" |} 8
        {| position := 0; log := [] |} = (Ok r, s')
      ∧ log s' = [] ++ Read Openpyxl 0 (8 - 1)%Z :: evs.
Proof.
  split; [reflexivity|].
  destruct (xlrd_retry_iff ex_reader {| name := "Parts.XLSX"; data := "xx" |} 8
              {| position := 0; log := [] |} eq_refl)
    as (r & s' & evs & Hrun & Hlog & _).
  exists r, s', evs. split; [exact Hrun|exact Hlog].
Defined.

(** ** More on the loader *)

Module PyStrMore.
Import PyStr.

Lemma endswith_cons c s p :
  endswith (String c s) p = String.eqb (String c s) p || endswith s p.
Proof. done. Qed.

Lemma endswith_refl p : endswith p p = true.
Proof. destruct p; [done|]. by rewrite endswith_cons, String.eqb_refl. Qed.

Lemma endswith_app a p : endswith (a +:+ p) p = true.
Proof.
  induction a as [|c a IH]; [apply endswith_refl|].
  change (String c a +:+ p) with (String c (a +:+ p)).
  rewrite endswith_cons, IH. apply orb_true_r.
Qed.

Lemma lower_app a b : lower (a +:+ b) = lower a +:+ lower b.
Proof. induction a as [|c a IH]; simpl; [done|]. by rewrite IH. Qed.

Lemma lower_char_idem c : lower_char (lower_char c) = lower_char c.
Proof. destruct c as [[] [] [] [] [] [] [] []]; reflexivity. Qed.

Lemma lower_idem s : lower (lower s) = lower s.
Proof.
  induction s as [|c s IH]; simpl; [done|]. by rewrite lower_char_idem, IH.
Qed.

End PyStrMore.

Section LoaderMore.

Variable reader : engine → string → nat → Z → (exn + DataFrame) * nat.

Ltac run_load :=
  unfold load_data_file, try_except, read_with, seek, st_error, st_info,
    raise, mbind, mret, M_bind, M_ret, bind, ret;
  cbn -[PyStr.endswith_any PyStr.endswith retry_with_xlrd failed_to_read
        header_hint Z.sub PyStr.lower].

(** The last character of a name that fits the suffixes of an engine. *)
Lemma engine_suffixes_last_char eng l :
  PyStr.endswith_any l (engine_suffixes eng) = true →
  match eng with
  | PythonCsv => PyStr.last_char l = Some "v"%char ∨ PyStr.last_char l = Some "t"%char
  | Pyxlsb => PyStr.last_char l = Some "b"%char
  | Openpyxl | Xlrd =>
      PyStr.last_char l = Some "x"%char ∨ PyStr.last_char l = Some "m"%char
      ∨ PyStr.last_char l = Some "s"%char
  end.
Proof.
  assert (∀ p, p ≠ "" → PyStr.endswith l p = true →
               PyStr.last_char l = PyStr.last_char p) as L
    by (intros; by apply endswith_last_char).
  unfold PyStr.endswith_any.
  destruct eng; simpl; rewrite ?orb_false_r; intros H;
    repeat (apply orb_true_iff in H as [H|H]);
    apply L in H; try done; simpl in H; auto.
Qed.

Lemma engine_suffixes_exclusive e1 e2 l :
  PyStr.endswith_any l (engine_suffixes e1) = true →
  PyStr.endswith_any l (engine_suffixes e2) = true →
  engine_suffixes e1 = engine_suffixes e2.
Proof.
  intros H1%engine_suffixes_last_char H2%engine_suffixes_last_char.
  destruct e1, e2; try done; intuition congruence.
Qed.

(** Splits a run of the loader into its paths. *)
Ltac load_paths f h s :=
  run_load;
  destruct (PyStr.endswith_any (PyStr.lower (name f)) [".csv"; ".tsv"; ".txt"])
    eqn:Tcsv;
  [ destruct (reader PythonCsv (data f) (position s) (h - 1)%Z)
      as [[e|df] p] eqn:E; cbn [fst snd]
  | destruct (PyStr.endswith (PyStr.lower (name f)) ".xlsb") eqn:Txlsb;
    [ destruct (reader Pyxlsb (data f) (position s) (h - 1)%Z)
        as [[e|df] p] eqn:E; cbn [fst snd]
    | destruct (PyStr.endswith_any (PyStr.lower (name f))
                  [".xlsx"; ".xlsm"; ".xls"]) eqn:Txlsx;
      [ destruct (reader Openpyxl (data f) (position s) (h - 1)%Z)
          as [[e|df] p] eqn:E; cbn [fst snd];
        [ destruct (retry_with_xlrd (PyStr.lower (name f)) e) eqn:R;
          cbn [fst snd];
          [ destruct (reader Xlrd (data f) 0%nat (h - 1)%Z)
              as [[e'|df] p'] eqn:E'; cbn [fst snd]
          | ]
        | ]
      | ] ] ].

(** A file is either dispatched to a reader, and then the first thing the
    loader does is a read from the current position with
    [header = header_row - 1]; or it has none of the seven extensions,
    and then the loader returns [None] and does nothing: no read and no
    message. *)
Theorem load_dispatch (f : UploadedFile) (h : Z) (s : session) :
  if dispatched (PyStr.lower (name f))
  then ∃ eng r s' evs,
         load_data_file reader f h s = (Ok r, s')
         ∧ log s' = log s ++ Read eng (position s) (h - 1)%Z :: evs
  else load_data_file reader f h s = (Ok None, s).
Proof.
  unfold dispatched. load_paths f h s; cbn [orb];
    try (eexists _, _, _, _; split; [reflexivity|]; cbn [log];
         rewrite <- ?app_assoc; reflexivity).
  reflexivity.
Qed.

(** Reads off the members of a closed log. *)
Ltac in_closed_log H :=
  cbn [app] in H; rewrite ?elem_of_cons, ?elem_of_nil in H;
  repeat match goal with
         | H : _ ∨ _ |- _ => destruct H as [H|H]
         end;
  try done; try (injection H as -> -> ->).

(** Every read of the loader has [header = header_row - 1] and an engine
    whose suffixes the lower-cased name ends in; and a name ends in the
    suffixes of one class of engines only.  So a delimited text file never
    reaches a spreadsheet reader, nor a spreadsheet the text reader. *)
Theorem reads_fit_extension (f : UploadedFile) (h : Z) (s : session) :
  (∃ r s' evs,
     load_data_file reader f h s = (Ok r, s')
     ∧ log s' = log s ++ evs
     ∧ ∀ eng pos hd, Read eng pos hd ∈ evs →
         hd = (h - 1)%Z
         ∧ PyStr.endswith_any (PyStr.lower (name f)) (engine_suffixes eng) = true)
  ∧ ∀ e1 e2,
      PyStr.endswith_any (PyStr.lower (name f)) (engine_suffixes e1) = true →
      PyStr.endswith_any (PyStr.lower (name f)) (engine_suffixes e2) = true →
      engine_suffixes e1 = engine_suffixes e2.
Proof.
  split; [|intros e1 e2; apply engine_suffixes_exclusive].
  load_paths f h s;
    (eexists _, _, _; split; [reflexivity|]; cbn [log];
     split; [first [rewrite <- ?app_assoc; reflexivity
                   | symmetry; apply app_nil_r]|]);
    intros eng pos hd Hin; in_closed_log Hin; split; try done.
  all: try (by apply elem_of_nil in Hin).
  all: cbn [engine_suffixes]; unfold PyStr.endswith_any; cbn [existsb];
    by rewrite Txlsb, orb_false_r.
Qed.

(** The loader reads at most twice and seeks at most once.  What it does
    to the file is nothing, or one read from the current position, or, in
    this order, a read by the zip-based reader from the current position, a
    seek to 0 and a read by the legacy reader from position 0. *)
Theorem read_bounds (f : UploadedFile) (h : Z) (s : session) :
  ∃ r s' evs,
    load_data_file reader f h s = (Ok r, s')
    ∧ log s' = log s ++ evs
    ∧ (filter (λ ev, is_read ev || is_seek ev) evs = []
       ∨ (∃ eng, filter (λ ev, is_read ev || is_seek ev) evs
                 = [Read eng (position s) (h - 1)%Z])
       ∨ filter (λ ev, is_read ev || is_seek ev) evs
         = [Read Openpyxl (position s) (h - 1)%Z; Seek 0;
            Read Xlrd 0 (h - 1)%Z]).
Proof.
  load_paths f h s;
    (eexists _, _, _; split; [reflexivity|]; cbn [log];
     split; [first [rewrite <- ?app_assoc; reflexivity
                   | symmetry; apply app_nil_r]|]);
    first [ by left | by right; left; eexists | by right; right ].
Qed.

(** The extension is read without regard to case: a file and the same
    bytes under the lower-cased name load to the same value, through the
    same reads, and leave the stream at the same position. *)
Theorem extension_case_insensitive (f : UploadedFile) (h : Z) (s : session) :
  let f' := {| name := PyStr.lower (name f); data := data f |} in
  (load_data_file reader f h s).1 = (load_data_file reader f' h s).1
  ∧ position (load_data_file reader f h s).2
    = position (load_data_file reader f' h s).2
  ∧ filter is_read (log (load_data_file reader f h s).2)
    = filter is_read (log (load_data_file reader f' h s).2).
Proof.
  intros f'. subst f'. unfold load_data_file. cbn [name data].
  rewrite PyStrMore.lower_idem. load_paths f h s;
    cbn [fst snd position log]; rewrite ?filter_app; done.
Qed.

(** A file named [.xls] (in any case) is read by the legacy reader
    whenever the zip-based reader fails, whatever the failure says: the
    value of the loader is the first reader's table, else the table of the
    second reader run from position 0, else [None]. *)
Theorem xls_always_retried (f : UploadedFile) (h : Z) (s : session) :
  PyStr.endswith (PyStr.lower (name f)) ".xls" = true →
  (load_data_file reader f h s).1
  = Ok match (reader Openpyxl (data f) (position s) (h - 1)%Z).1 with
       | inr df => Some df
       | inl _ =>
           match (reader Xlrd (data f) 0%nat (h - 1)%Z).1 with
           | inr df => Some df
           | inl _ => None
           end
       end.
Proof.
  intros Hxls.
  assert (PyStr.endswith_any (PyStr.lower (name f)) [".xlsx"; ".xlsm"; ".xls"]
          = true) as Hext.
  { unfold PyStr.endswith_any. cbn [existsb]. rewrite Hxls.
    by rewrite !orb_true_r. }
  destruct (modern_extension_only _ Hext) as [H1 H2].
  load_paths f h s; try congruence.
  unfold retry_with_xlrd in R. rewrite Hxls, orb_true_r in R. done.
Qed.

End LoaderMore.

(** The branches of the loader cover the types of the uploaders, and
    nothing else: a lower-cased name is dispatched exactly when it ends in
    a dot and one of [SUPPORTED_TYPES]. *)
Theorem supported_types_dispatched (file_name_lower : string) :
  dispatched file_name_lower = true
  ↔ ∃ ext, ext ∈ SUPPORTED_TYPES
           ∧ PyStr.endswith file_name_lower ("." +:+ ext) = true.
Proof.
  unfold dispatched, PyStr.endswith_any, SUPPORTED_TYPES. cbn [existsb].
  rewrite !orb_false_r. split.
  - intros H. repeat (apply orb_true_iff in H as [H|H]);
      eexists; (split; [|exact H]);
      rewrite !elem_of_cons; auto 10.
  - intros (ext & Hin & H). rewrite !elem_of_cons, elem_of_nil in Hin.
    repeat (destruct Hin as [->|Hin]); try done;
      match type of H with
      | context [?a +:+ ?b] =>
          let t := eval vm_compute in (a +:+ b) in change (a +:+ b) with t in H
      end; rewrite H, ?orb_true_r; done.
Qed.

(** ** More on the handler *)

Module HandlerMore.

Lemma get_locs_in label cols : label ∈ cols → get_locs label cols ≠ [].
Proof. intros Hin E. by apply get_locs_nil in E. Qed.

Lemma convert_frames_no_master_column U Mf uk mk v :
  mk ∉ columns Mf → v ∉ columns Mf →
  convert_frames U Mf uk mk v
  = Raise (key_error ("None of [" +:+ index_repr [mk; v]
                      +:+ "] are in the [columns]")).
Proof.
  intros Hmk Hv. unfold convert_frames, getitem_list.
  rewrite !filter_cons, filter_nil.
  rewrite (decide_True (P := mk ∉ columns Mf)) by done.
  rewrite (decide_True (P := v ∉ columns Mf)) by done.
  by rewrite decide_True.
Qed.

Lemma convert_frames_no_master_key U Mf uk mk v :
  mk ∉ columns Mf → v ∈ columns Mf →
  convert_frames U Mf uk mk v
  = Raise (key_error (list_repr [mk] +:+ " not in index")).
Proof.
  intros Hmk Hv. unfold convert_frames, getitem_list.
  rewrite !filter_cons, filter_nil.
  rewrite (decide_True (P := mk ∉ columns Mf)) by done.
  rewrite (decide_False (P := v ∉ columns Mf)) by (intros H; by apply H).
  rewrite decide_False by discriminate. cbn [unique].
  by rewrite decide_False by apply not_elem_of_nil.
Qed.

Lemma convert_frames_no_master_value U Mf uk mk v :
  mk ∈ columns Mf → v ∉ columns Mf →
  convert_frames U Mf uk mk v
  = Raise (key_error (list_repr [v] +:+ " not in index")).
Proof.
  intros Hmk Hv. unfold convert_frames, getitem_list.
  rewrite !filter_cons, filter_nil.
  rewrite (decide_False (P := mk ∉ columns Mf)) by (intros H; by apply H).
  rewrite (decide_True (P := v ∉ columns Mf)) by done.
  rewrite decide_False by (intros [= E]; by rewrite E in Hmk).
  cbn [unique]. by rewrite decide_False by apply not_elem_of_nil.
Qed.

Lemma convert_frames_no_data_key U Mf uk mk v :
  NoDup (columns Mf) → mk ∈ columns Mf → v ∈ columns Mf → mk ≠ v →
  uk ∉ columns U → convert_frames U Mf uk mk v = Raise (key_error uk).
Proof.
  intros Hnd Hmk Hv Hne Huk. unfold convert_frames.
  rewrite getitem_list_pair by done. cbn [mbind outcome_bind].
  rewrite (normalize_column_one mk).
  2:{ apply NoDup_cons. split; [|apply NoDup_singleton].
      rewrite list_elem_of_singleton. done. }
  2:{ apply list_elem_of_here. }
  cbn [mbind outcome_bind].
  unfold normalize_column at 1, getitem_astype_str, select.
  by rewrite get_locs_notin.
Qed.

Lemma convert_frames_same_column U Mf uk mk :
  NoDup (columns Mf) → mk ∈ columns Mf →
  convert_frames U Mf uk mk mk
  = Raise (AttributeError "'DataFrame' object has no attribute 'str'").
Proof.
  intros Hnd Hmk. unfold convert_frames, getitem_list.
  rewrite !filter_cons, !decide_False, filter_nil by (intros H; by apply H).
  cbn [mbind outcome_bind list_bind fmap option_fmap option_map].
  rewrite get_locs_get_loc by done.
  unfold normalize_column, getitem_astype_str, select. cbn [columns].
  cbn [mbind list_bind fmap list_fmap app get_locs].
  rewrite decide_True by done. done.
Qed.

(** The outcome of the handler is the outcome of [convert_frames]. *)
Lemma convert_outcome_raise (σ : store) u m U Mf uk mk v e :
  σ !! u = Some U → σ !! m = Some Mf →
  convert_frames U Mf uk mk v = Raise e →
  ∃ ν, convert u m uk mk v σ = (Raise e, σ ++ ν).
Proof.
  intros Hu Hm E.
  destruct (convert_store σ u m U Mf uk mk v Hu Hm) as (ν & Hrun & _).
  rewrite E in Hrun. by exists ν.
Qed.


Lemma strip_lstrip_fixed s : PyStr.lstrip (PyStr.strip s) = PyStr.strip s.
Proof.
  unfold PyStr.strip.
  assert (∀ t, PyStr.lstrip t = t → PyStr.lstrip (PyStr.rstrip t) = PyStr.rstrip t)
    as H.
  { intros [|c t]; [done|]. simpl.
    destruct (PyStr.isspace c) eqn:Hc.
    - intros E. exfalso. clear -E.
      assert (∀ u, String.length (PyStr.lstrip u) ≤ String.length u)%nat as L.
      { induction u as [|d u IH]; simpl; [lia|]. destruct (PyStr.isspace d); simpl; lia. }
      specialize (L t). rewrite E in L. simpl in L. lia.
    - intros _. destruct (PyStr.rstrip t); simpl; by rewrite Hc. }
  apply H. clear H.
  induction s as [|c s IH]; [done|]. simpl.
  destruct (PyStr.isspace c) eqn:Hc; [done|]. simpl. by rewrite Hc.
Qed.

Lemma rstrip_idem s : PyStr.rstrip (PyStr.rstrip s) = PyStr.rstrip s.
Proof.
  induction s as [|c s IH]; [done|]. simpl.
  destruct (PyStr.rstrip s) as [|d t] eqn:E.
  - destruct (PyStr.isspace c) eqn:Hc; simpl; [done|]. by rewrite Hc.
  - change (PyStr.rstrip (String c (String d t)))
      with (match PyStr.rstrip (String d t) with
            | "" => if PyStr.isspace c then "" else String c ""
            | r => String c r
            end).
    by rewrite IH.
Qed.

Lemma strip_idem s : PyStr.strip (PyStr.strip s) = PyStr.strip s.
Proof.
  unfold PyStr.strip at 1. rewrite strip_lstrip_fixed.
  unfold PyStr.strip. apply rstrip_idem.
Qed.

Lemma normalize_key_idem c : normalize_key (normalize_key c) = normalize_key c.
Proof.
  unfold normalize_key. destruct c; cbn [astype_str str_strip];
    by rewrite strip_idem.
Qed.

Lemma first_match_in k ik mrows x :
  first_match k ik mrows = Some x → x ∈ mrows.
Proof.
  unfold first_match. intros H.
  apply head_filter_Some in H as (l1 & l2 & -> & _).
  apply elem_of_app. right. apply list_elem_of_here.
Qed.

Lemma output_cell_pairs up k ik iv (mrows : list (list cell)) :
  output_cell up k ik iv mrows
  = fillna (CText NOT_FOUND)
      (from_option (λ p, merged_value up p.2) CMissing
         (head (filter (λ p, normalize_key p.1 = k)
                  (zip (column_at ik mrows) (column_at iv mrows))))).
Proof.
  unfold output_cell, first_match, column_at. f_equal.
  induction mrows as [|x mrows IH]; [done|].
  rewrite !fmap_cons. cbn [zip_with]. rewrite !filter_cons. cbn [fst].
  destruct (decide (normalize_key (cell_at ik x) = k)); [done|]. apply IH.
Qed.

Lemma existsb_ext {A} (f g : A → bool) (l : list A) :
  (∀ x, f x = g x) → existsb f l = existsb g l.
Proof. intros H. induction l as [|x l IH]; simpl; [done|]. by rewrite H, IH. Qed.

(** Whether a key is matched depends on the master's key column only. *)
Lemma first_match_column k ik (mrows : list (list cell)) :
  bool_decide (first_match k ik mrows = None)
  = bool_decide (filter (λ c, normalize_key c = k) (column_at ik mrows) = []).
Proof.
  apply bool_decide_ext. unfold first_match, column_at.
  induction mrows as [|x mrows IH]; [done|].
  rewrite fmap_cons, !filter_cons.
  destruct (decide (normalize_key (cell_at ik x) = k)); [done|]. apply IH.
Qed.

Lemma unmatched_column iu ik (urows mrows : list (list cell)) :
  unmatched iu ik urows mrows
  = existsb (λ r, bool_decide
                    (filter (λ c, normalize_key c = normalize_key (cell_at iu r))
                       (column_at ik mrows) = [])) urows.
Proof. apply existsb_ext. intros r. apply first_match_column. Qed.

End HandlerMore.

Import HandlerMore.

(** A selection that is no column of its table stops the handler with a
    [KeyError], and the store keeps the input frames.  For the master there
    is one [KeyError], raised by the projection on the two selected labels:
    its message holds both labels when both are absent, and the absent one
    when the other is a column.  When the master has the two labels, and
    they differ, a key label that the data table does not have is the key
    of the [KeyError]. *)
Theorem missing_column_key_error (σ : store) u m U Mf uk mk v :
  σ !! u = Some U → σ !! m = Some Mf →
  (mk ∉ columns Mf → v ∉ columns Mf →
   ∃ ν, convert u m uk mk v σ
        = (Raise (key_error ("None of [Index([" +:+ pprint_label mk +:+ ", "
                             +:+ pprint_label v
                             +:+ "], dtype='object')] are in the [columns]")),
           σ ++ ν))
  ∧ (mk ∉ columns Mf → v ∈ columns Mf →
     ∃ ν, convert u m uk mk v σ
          = (Raise (key_error ("[" +:+ PyStr.repr mk +:+ "] not in index")),
             σ ++ ν))
  ∧ (mk ∈ columns Mf → v ∉ columns Mf →
     ∃ ν, convert u m uk mk v σ
          = (Raise (key_error ("[" +:+ PyStr.repr v +:+ "] not in index")),
             σ ++ ν))
  ∧ (NoDup (columns Mf) → mk ∈ columns Mf → v ∈ columns Mf → mk ≠ v →
     uk ∉ columns U →
     ∃ ν, convert u m uk mk v σ = (Raise (key_error uk), σ ++ ν)).
Proof.
  intros Hu Hm. split_and!; intros.
  - eapply convert_outcome_raise; [done..|].
    rewrite convert_frames_no_master_column by done.
    unfold index_repr. cbn [fmap list_fmap PyStr.join].
    by rewrite !append_assoc.
  - eapply convert_outcome_raise; [done..|].
    rewrite convert_frames_no_master_key by done.
    unfold list_repr. cbn [fmap list_fmap PyStr.join].
    by rewrite !append_assoc.
  - eapply convert_outcome_raise; [done..|].
    rewrite convert_frames_no_master_value by done.
    unfold list_repr. cbn [fmap list_fmap PyStr.join].
    by rewrite !append_assoc.
  - eapply convert_outcome_raise; [done..|].
    by apply convert_frames_no_data_key.
Qed.

(** One master column selected both as key and as value stops the handler
    with an [AttributeError]: the projection holds the label twice, so the
    selection by that label is a frame and has no [.str]. *)
Theorem same_column_attribute_error (σ : store) u m U Mf uk mk :
  σ !! u = Some U → σ !! m = Some Mf →
  NoDup (columns Mf) → mk ∈ columns Mf →
  ∃ ν, convert u m uk mk mk σ
       = (Raise (AttributeError "'DataFrame' object has no attribute 'str'"),
          σ ++ ν).
Proof.
  intros Hu Hm Hnd Hmk. eapply convert_outcome_raise; [done..|].
  by apply convert_frames_same_column.
Qed.

(** On valid inputs the result is a well-formed table: its labels are
    unique and every row has one cell per label. *)
Theorem result_well_formed (σ : store) u m U Mf uk mk v :
  σ !! u = Some U → σ !! m = Some Mf → valid_inputs U Mf uk mk v →
  ∃ res, converts σ u m uk mk v res ∧ wf res.
Proof.
  intros Hu Hm Hv. eexists. split; [by eapply converts_valid|].
  pose proof (result_columns_perm _ _ _ _ _ Hv) as Hp.
  destruct Hv as ([HndU HlenU] & _ & Huk & _ & _ & _ & _ & _ & HnewU & _).
  unfold wf, converted. cbn [columns rows]. split.
  - rewrite Hp. apply NoDup_app. split; [done|].
    split; [|apply NoDup_singleton].
    intros c Hc ->%list_elem_of_singleton. done.
  - assert (length (result_columns U uk mk) = length (columns U) + 1)%nat
      as -> by (by rewrite Hp, length_app).
    apply Forall_fmap.
    eapply Forall_impl; [exact HlenU|]. intros r Hr. cbv beta in Hr.
    unfold compose, converted_row.
    rewrite length_app, length_insert, Hr. done.
Qed.

(** On valid inputs no cell of the output column is missing, and each is
    the sentinel or the value cell of a master row as the lookup hands it
    on.  When every data row is matched, that is the value cell itself.
    When some data row is unmatched, an integer of an integer column comes
    out as the float nearest to it, which has the same value below 2^53,
    and every other cell comes out as it is. *)
Theorem output_cells_origin (σ : store) u m U Mf uk mk v :
  let iu := get_loc uk (columns U) in
  let ik := get_loc mk (columns Mf) in
  let iv := get_loc v (columns Mf) in
  let up := unmatched iu ik (rows U) (rows Mf) in
  σ !! u = Some U → σ !! m = Some Mf → valid_inputs U Mf uk mk v →
  (∃ res, converts σ u m uk mk v res
     ∧ ∀ c, c ∈ column new_col_name res →
         c ≠ CMissing
         ∧ (c = CText NOT_FOUND
            ∨ ∃ x, x ∈ rows Mf
                   ∧ c = (if up then upcast (cell_at iv x) else cell_at iv x)))
  ∧ (∀ c, (∀ z, c ≠ CInt z) → upcast c = c)
  ∧ (∀ z, upcast (CInt z) = CFloat (PyFloat.of_int z))
  ∧ (∀ z, (Z.abs z < 2 ^ 53)%Z → PyFloat.of_int z = z).
Proof.
  intros iu ik iv up Hu Hm Hv. split_and!.
  - eexists. split; [by eapply converts_valid|].
    rewrite converted_output_column by done. fold iu ik iv up.
    intros c (r & -> & Hr)%list_elem_of_fmap. unfold output_cell.
    destruct (first_match _ _ (rows Mf)) as [x|] eqn:E; cbn [from_option].
    + apply first_match_in in E. fold (merged_value up (cell_at iv x)).
      destruct (merged_value up (cell_at iv x)) eqn:Ec; cbn [fillna];
        (split; [done|]); first [by left | right; exists x; by split].
    + cbn [fillna]. split; [done|]. by left.
  - intros c Hc. destruct c; try done. by destruct (Hc z).
  - done.
  - intros z Hz. unfold PyFloat.of_int.
    destruct (Z.leb_spec (Z.log2 (Z.abs z) + 1 - 53) 0) as [_|Hlt]; [done|].
    exfalso. destruct (decide (Z.abs z = 0%Z)) as [E0|Hne].
    + rewrite E0 in Hlt. simpl in Hlt. lia.
    + assert (Z.log2 (Z.abs z) < 53)%Z by (apply Z.log2_lt_pow2; lia). lia.
Qed.

(** The handler can be run again on the store it left, with the same
    references and selections: it returns a table equal to the first, in
    a new frame, and the first result is still in the store; a run that
    raised raises the same exception again. *)
Theorem conversion_repeatable (σ : store) u m U Mf uk mk v :
  σ !! u = Some U → σ !! m = Some Mf →
  (∀ r σ' res,
     convert u m uk mk v σ = (Ok r, σ') → σ' !! r = Some res →
     ∃ r' σ'', convert u m uk mk v σ' = (Ok r', σ'')
               ∧ σ'' !! r' = Some res ∧ σ'' !! r = Some res ∧ r ≠ r')
  ∧ (∀ e σ', convert u m uk mk v σ = (Raise e, σ') →
             ∃ σ'', convert u m uk mk v σ' = (Raise e, σ'')).
Proof.
  intros Hu Hm.
  destruct (convert_store σ u m U Mf uk mk v Hu Hm) as (ν & Hrun & Hres).
  assert ((σ ++ ν) !! u = Some U) as Hu' by (by apply lookup_app_l_Some).
  assert ((σ ++ ν) !! m = Some Mf) as Hm' by (by apply lookup_app_l_Some).
  destruct (convert_store (σ ++ ν) u m U Mf uk mk v Hu' Hm')
    as (ν' & Hrun' & Hres').
  rewrite Hrun. destruct (convert_frames U Mf uk mk v) as [res0|e0|];
    cbn [mbind outcome_bind] in *; split.
  - intros r σ' res [= <- <-] Hr.
    rewrite lookup_new, (Hres res0 eq_refl) in Hr. injection Hr as <-.
    eexists _, _. split; [exact Hrun'|].
    split; [rewrite lookup_new; by apply Hres'|].
    split.
    + apply lookup_app_l_Some. rewrite lookup_new. by apply Hres.
    + pose proof (lookup_lt_Some _ _ _ (Hres res0 eq_refl)).
      rewrite length_app. lia.
  - intros e σ' [=].
  - intros r σ' res [=].
  - intros e σ' [= <- <-]. by eexists.
  - intros r σ' res [=].
  - intros e σ' [=].
Qed.

(** A blank key is the key "nan".  On valid inputs a data row whose key
    cell is missing shows "nan" in the key column of the result and is
    matched with the first master row whose normalized key is "nan": a
    master row whose key cell is missing, if no earlier row has that key. *)
Theorem blank_keys_match (σ : store) u m U Mf uk mk v n r pre x post :
  let iu := get_loc uk (columns U) in
  let ik := get_loc mk (columns Mf) in
  let iv := get_loc v (columns Mf) in
  σ !! u = Some U → σ !! m = Some Mf → valid_inputs U Mf uk mk v →
  rows U !! n = Some r → cell_at iu r = CMissing →
  rows Mf = pre ++ x :: post →
  Forall (λ y, normalize_key (cell_at ik y) ≠ CText "nan") pre →
  cell_at ik x = CMissing →
  ∃ res, converts σ u m uk mk v res
    ∧ column uk res !! n = Some (CText "nan")
    ∧ column new_col_name res !! n
      = Some (fillna (CText NOT_FOUND)
                (merged_value (unmatched iu ik (rows U) (rows Mf))
                   (cell_at iv x))).
Proof.
  intros iu ik iv Hu Hm Hv Hr Hblank HM Hpre Hx.
  eexists. split; [by eapply converts_valid|].
  rewrite converted_key_column, converted_output_column by done.
  unfold column, column_at. rewrite !list_lookup_fmap, Hr. cbn [fmap option_fmap option_map].
  fold iu ik iv. rewrite Hblank. split; [done|].
  unfold output_cell. rewrite HM, (first_match_first _ ik pre x); [done..|].
  by rewrite Hx.
Qed.

(** Normalizing a key twice is normalizing it once, and the key column of
    the result holds normalized keys: normalizing it changes nothing. *)
Theorem result_keys_normalized (σ : store) u m U Mf uk mk v :
  σ !! u = Some U → σ !! m = Some Mf → valid_inputs U Mf uk mk v →
  (∀ c, normalize_key (normalize_key c) = normalize_key c)
  ∧ ∃ res, converts σ u m uk mk v res
      ∧ normalize_key <$> column uk res = column uk res.
Proof.
  intros Hu Hm Hv. split; [apply normalize_key_idem|].
  eexists. split; [by eapply converts_valid|].
  rewrite converted_key_column by done.
  rewrite <- list_fmap_compose. apply list_fmap_ext.
  intros i c _. apply normalize_key_idem.
Qed.

(** The result depends on the master through its key column and its value
    column only: two masters with these two columns equal give the same
    result, whatever their other columns hold. *)
Theorem other_master_columns_irrelevant (σ1 σ2 : store) u m1 m2 U M1 M2 uk mk v :
  σ1 !! u = Some U → σ2 !! u = Some U →
  σ1 !! m1 = Some M1 → σ2 !! m2 = Some M2 →
  valid_inputs U M1 uk mk v → valid_inputs U M2 uk mk v →
  column mk M1 = column mk M2 → column v M1 = column v M2 →
  ∃ res, converts σ1 u m1 uk mk v res ∧ converts σ2 u m2 uk mk v res.
Proof.
  intros Hu1 Hu2 Hm1 Hm2 Hv1 Hv2 Hk Hval.
  exists (converted U M1 uk mk v). split; [by eapply converts_valid|].
  assert (converted U M1 uk mk v = converted U M2 uk mk v) as ->;
    [|by eapply converts_valid].
  unfold converted. rewrite !unmatched_column.
  unfold column in Hk, Hval. rewrite Hk.
  f_equal. apply list_fmap_ext. intros i r _.
  unfold converted_row. f_equal. f_equal.
  rewrite !output_cell_pairs. by rewrite Hk, Hval.
Qed.

Module DedupFacts.

Lemma first_match_later_duplicate k ik (front : list (list cell)) x1 x2 post :
  x1 ∈ front →
  normalize_key (cell_at ik x2) = normalize_key (cell_at ik x1) →
  first_match k ik (front ++ x2 :: post) = first_match k ik (front ++ post).
Proof.
  intros Hin Hk. unfold first_match. rewrite !filter_app, filter_cons.
  destruct (decide (normalize_key (cell_at ik x2) = k)) as [E|]; [|done].
  assert (x1 ∈ filter (λ r, normalize_key (cell_at ik r) = k) front) as H.
  { apply list_elem_of_filter. split; [congruence|done]. }
  destruct (filter _ front); [by apply elem_of_nil in H|done].
Qed.

End DedupFacts.

Import DedupFacts.

(** Data rows with the same normalized key get the same output cell. *)
Theorem equal_keys_equal_outputs (σ : store) u m U Mf uk mk v n1 n2 r1 r2 :
  let iu := get_loc uk (columns U) in
  σ !! u = Some U → σ !! m = Some Mf → valid_inputs U Mf uk mk v →
  rows U !! n1 = Some r1 → rows U !! n2 = Some r2 →
  normalize_key (cell_at iu r1) = normalize_key (cell_at iu r2) →
  ∃ res, converts σ u m uk mk v res
    ∧ is_Some (column new_col_name res !! n1)
    ∧ column new_col_name res !! n1 = column new_col_name res !! n2.
Proof.
  intros iu Hu Hm Hv H1 H2 Hk.
  eexists. split; [by eapply converts_valid|].
  rewrite converted_output_column by done.
  rewrite !list_lookup_fmap, H1, H2. cbn [fmap option_fmap option_map].
  fold iu. rewrite Hk. split; [by eexists|done].
Qed.

(** A master row that repeats the normalized key of an earlier master row
    has no effect: without it the result is the same table. *)
Theorem later_duplicate_irrelevant (σ1 σ2 : store) u m1 m2 U M1 M2 uk mk v
    pre x1 mid x2 post :
  let ik := get_loc mk (columns M1) in
  σ1 !! u = Some U → σ2 !! u = Some U →
  σ1 !! m1 = Some M1 → σ2 !! m2 = Some M2 →
  valid_inputs U M1 uk mk v →
  rows M1 = pre ++ x1 :: mid ++ x2 :: post →
  normalize_key (cell_at ik x2) = normalize_key (cell_at ik x1) →
  columns M2 = columns M1 → rows M2 = pre ++ x1 :: mid ++ post →
  ∃ res, converts σ1 u m1 uk mk v res ∧ converts σ2 u m2 uk mk v res.
Proof.
  intros ik Hu1 Hu2 Hm1 Hm2 Hv HM1 Hk Hcols HM2.
  assert (valid_inputs U M2 uk mk v) as Hv2.
  { destruct Hv as (HwU & [Hnd Hlen] & Hrest). unfold valid_inputs, wf.
    rewrite Hcols. split; [done|]. split; [|done]. split; [done|].
    rewrite HM1 in Hlen. rewrite HM2.
    change (pre ++ x1 :: mid ++ x2 :: post)
      with (pre ++ (x1 :: mid) ++ x2 :: post) in Hlen.
    rewrite !Forall_app in Hlen. destruct Hlen as (A & B & C).
    apply Forall_cons in C as [_ C].
    change (pre ++ x1 :: mid ++ post) with (pre ++ (x1 :: mid) ++ post).
    rewrite !Forall_app. done. }
  exists (converted U M1 uk mk v). split; [by eapply converts_valid|].
  assert (converted U M1 uk mk v = converted U M2 uk mk v) as ->;
    [|by eapply converts_valid].
  assert (∀ k, first_match k ik (rows M1) = first_match k ik (rows M2)) as Hfm.
  { intros k. rewrite HM1, HM2.
    change (pre ++ x1 :: mid ++ x2 :: post)
      with (pre ++ (x1 :: mid) ++ x2 :: post).
    change (pre ++ x1 :: mid ++ post) with (pre ++ (x1 :: mid) ++ post).
    rewrite !app_assoc.
    apply (first_match_later_duplicate _ _ _ x1).
    - apply elem_of_app. right. apply list_elem_of_here.
    - exact Hk. }
  unfold converted. rewrite Hcols. fold ik.
  assert (unmatched (get_loc uk (columns U)) ik (rows U) (rows M1)
          = unmatched (get_loc uk (columns U)) ik (rows U) (rows M2)) as ->.
  { apply existsb_ext. intros r. by rewrite Hfm. }
  f_equal. apply list_fmap_ext. intros i r _.
  unfold converted_row, output_cell. by rewrite Hfm.
Qed.

(** ** The default selections of the form *)

Module FormFacts.

Lemma list_index_lookup x cols :
  x ∈ cols → ∃ i, list_index x cols = Ok i ∧ cols !! i = Some x.
Proof.
  induction cols as [|c cols IH]; intros Hin.
  - by apply elem_of_nil in Hin.
  - cbn [list_index]. destruct (decide (c = x)) as [->|Hne].
    + by exists 0%nat.
    + apply elem_of_cons in Hin as [?|Hin]; [congruence|].
      destruct (IH Hin) as (i & -> & Hi). by exists (S i).
Qed.

Lemma default_selection_present label fallback cols :
  label ∈ cols → default_selection label fallback cols = Ok (Some label).
Proof.
  intros Hin. unfold default_selection, default_index.
  rewrite decide_True by done.
  destruct (list_index_lookup label cols Hin) as (i & -> & Hi).
  cbn [mbind outcome_bind]. unfold selectbox. rewrite Hi.
  by destruct cols.
Qed.

Lemma default_selection_absent label fallback cols :
  label ∉ cols → default_selection label fallback cols = selectbox cols fallback.
Proof.
  intros Hin. unfold default_selection, default_index.
  by rewrite decide_False.
Qed.

End FormFacts.

Import FormFacts.

(** A select box starts at its preferred label whenever the table has a
    column with that label. *)
Theorem default_prefers_label (label : string) (fallback : nat) (cols : list string) :
  label ∈ cols → default_selection label fallback cols = Ok (Some label).
Proof. apply default_selection_present. Qed.

(** The default of a select box raises exactly when the preferred label is
    absent and the fallback is no position of a non-empty list of columns.
    So the key boxes, whose fallback is 0, never raise, and the box of the
    new part number raises exactly on a master with one column that is not
    "200 Number". *)
Theorem default_selection_raises_iff (label : string) (fallback : nat)
    (cols : list string) :
  ((∃ e, default_selection label fallback cols = Raise e)
   ↔ (label ∉ cols) ∧ cols ≠ [] ∧ (length cols ≤ fallback)%nat)
  ∧ default_selection label fallback cols ≠ Undefined.
Proof.
  destruct (decide (label ∈ cols)) as [Hin|Hin].
  - rewrite default_selection_present by done. split; [|done].
    split; [by intros [e ?]|by intros [? _]].
  - rewrite default_selection_absent by done. unfold selectbox.
    destruct cols as [|c cols]; [split; [|done]; split; [by intros [e ?]|by intros (_ & ? & _)]|].
    destruct ((c :: cols) !! fallback) as [o|] eqn:E; cbn [from_option].
    + apply lookup_lt_Some in E. split; [|done].
      split; [by intros [e ?]|]. intros (_ & _ & ?). lia.
    + apply lookup_ge_None in E. split; [|done].
      split; [done|]. intros _. by eexists.
Qed.

(** The two select boxes of the master start on one and the same column
    when the master has no "E Number" column and "200 Number" is its first
    column, or no "200 Number" column and "E Number" is its second column;
    the handler run with these defaults stops with an [AttributeError]. *)
Theorem default_columns_collide (σ : store) u m U Mf uk :
  σ !! u = Some U → σ !! m = Some Mf → NoDup (columns Mf) →
  (("E Number" ∉ columns Mf) ∧ ∃ rest, columns Mf = "200 Number" :: rest)
  ∨ (("200 Number" ∉ columns Mf)
     ∧ ∃ c0 rest, columns Mf = c0 :: "E Number" :: rest) →
  ∃ c, master_e_col_default (columns Mf) = Ok (Some c)
    ∧ new_part_col_default (columns Mf) = Ok (Some c)
    ∧ ∃ ν, convert u m uk c c σ
           = (Raise (AttributeError "'DataFrame' object has no attribute 'str'"),
              σ ++ ν).
Proof.
  intros Hu Hm Hnd [[HE (rest & Hc)]|[H2 (c0 & rest & Hc)]].
  - exists "200 Number".
    assert ("200 Number" ∈ columns Mf) as Hin
      by (rewrite Hc; apply list_elem_of_here).
    unfold master_e_col_default, new_part_col_default.
    rewrite default_selection_absent by done.
    rewrite default_selection_present by done.
    split; [by rewrite Hc|]. split; [done|].
    eapply convert_outcome_raise; [done..|].
    by apply convert_frames_same_column.
  - exists "E Number".
    assert ("E Number" ∈ columns Mf) as Hin
      by (rewrite Hc; apply list_elem_of_further, list_elem_of_here).
    unfold master_e_col_default, new_part_col_default.
    rewrite default_selection_present by done.
    rewrite default_selection_absent by done.
    split; [done|]. split; [by rewrite Hc|].
    eapply convert_outcome_raise; [done..|].
    by apply convert_frames_same_column.
Qed.

(** With the standard headers the defaults convert: when the master has
    the columns "E Number" and "200 Number", the data table has the column
    "PART/ E #" and none of the master's two labels nor the output label,
    the three select boxes start on these labels and the handler run with
    them returns the result table. *)
Theorem standard_headers_convert (σ : store) u m U Mf :
  σ !! u = Some U → σ !! m = Some Mf → wf U → wf Mf →
  "E Number" ∈ columns Mf → "200 Number" ∈ columns Mf →
  "PART/ E #" ∈ columns U →
  "E Number" ∉ columns U → "200 Number" ∉ columns U →
  new_col_name ∉ columns U →
  master_e_col_default (columns Mf) = Ok (Some "E Number")
  ∧ new_part_col_default (columns Mf) = Ok (Some "200 Number")
  ∧ user_e_col_default (columns U) = Ok (Some "PART/ E #")
  ∧ converts σ u m "PART/ E #" "E Number" "200 Number"
      (converted U Mf "PART/ E #" "E Number" "200 Number").
Proof.
  intros Hu Hm HwU HwM HE H2 HP HEU H2U Hnew.
  unfold master_e_col_default, new_part_col_default, user_e_col_default.
  rewrite !default_selection_present by done.
  do 3 (split; [done|]).
  apply converts_valid; [done..|].
  unfold valid_inputs. split_and!; try done. by right.
Qed.

(** ** The further theorems at concrete inputs *)

Lemma xls_always_retried_witness :
  PyStr.endswith (PyStr.lower "old.XLS") ".xls" = true
  ∧ (load_data_file ex_reader {| name := "old.XLS"; data := "xx" |} 1
       {| position := 0; log := [] |}).1 = Ok (Some ex_data).
Proof.
  split; [reflexivity|].
  apply (xls_always_retried ex_reader {| name := "old.XLS"; data := "xx" |} 1
           {| position := 0; log := [] |}).
  reflexivity.
Defined.

Lemma missing_column_key_error_witness :
  ("Nope" ∉ columns ex_master) ∧ ("Nada" ∉ columns ex_master)
  ∧ "New" ∈ columns ex_master
  ∧ (∃ ν, convert 0 1 "Part" "Nope" "Nada" [ex_data; ex_master]
          = (Raise (key_error "None of [Index(['Nope', 'Nada'], dtype='object')] are in the [columns]"),
             [ex_data; ex_master] ++ ν))
  ∧ (∃ ν, convert 0 1 "Part" "Nope" "New" [ex_data; ex_master]
          = (Raise (key_error "['Nope'] not in index"),
             [ex_data; ex_master] ++ ν)).
Proof.
  assert ("Nope" ∉ columns ex_master) as Hn by by_evaluation.
  assert ("Nada" ∉ columns ex_master) as Hn' by by_evaluation.
  assert ("New" ∈ columns ex_master) as Hin by by_evaluation.
  split; [exact Hn|]. split; [exact Hn'|]. split; [exact Hin|]. split.
  - destruct (missing_column_key_error [ex_data; ex_master] 0 1 ex_data
                ex_master "Part" "Nope" "Nada" eq_refl eq_refl) as [H _].
    exact (H Hn Hn').
  - destruct (missing_column_key_error [ex_data; ex_master] 0 1 ex_data
                ex_master "Part" "Nope" "New" eq_refl eq_refl) as (_ & H & _).
    exact (H Hn Hin).
Defined.

Lemma same_column_attribute_error_witness :
  NoDup (columns ex_master) ∧ "E" ∈ columns ex_master
  ∧ ∃ ν, convert 0 1 "Part" "E" "E" [ex_data; ex_master]
         = (Raise (AttributeError "'DataFrame' object has no attribute 'str'"),
            [ex_data; ex_master] ++ ν).
Proof.
  assert (NoDup (columns ex_master)) as Hnd by by_evaluation.
  assert ("E" ∈ columns ex_master) as Hin by by_evaluation.
  split; [exact Hnd|]. split; [exact Hin|].
  exact (same_column_attribute_error [ex_data; ex_master] 0 1 ex_data ex_master
           "Part" "E" eq_refl eq_refl Hnd Hin).
Defined.

Lemma result_well_formed_witness :
  valid_inputs ex_data_same ex_master_mixed "E" "E" "New"
  ∧ ∃ res, converts [ex_data_same; ex_master_mixed] 0 1 "E" "E" "New" res
      ∧ wf res.
Proof.
  assert (valid_inputs ex_data_same ex_master_mixed "E" "E" "New") as Hv
    by by_evaluation.
  split; [exact Hv|].
  exact (result_well_formed [ex_data_same; ex_master_mixed] 0 1 ex_data_same
           ex_master_mixed "E" "E" "New" eq_refl eq_refl Hv).
Defined.

Lemma output_cells_origin_witness :
  valid_inputs ex_data_upper ex_master_int "Part" "E" "New"
  ∧ ∃ res, converts [ex_data_upper; ex_master_int] 0 1 "Part" "E" "New" res
      ∧ ∀ c, c ∈ column new_col_name res →
          c ≠ CMissing
          ∧ (c = CText NOT_FOUND
             ∨ ∃ x, x ∈ rows ex_master_int ∧ c = upcast (cell_at 1 x)).
Proof.
  assert (valid_inputs ex_data_upper ex_master_int "Part" "E" "New") as Hv
    by by_evaluation.
  split; [exact Hv|].
  destruct (output_cells_origin [ex_data_upper; ex_master_int] 0 1
              ex_data_upper ex_master_int "Part" "E" "New" eq_refl eq_refl Hv)
    as [H _].
  exact H.
Defined.

Lemma conversion_repeatable_witness :
  ∃ r σ' r' σ'' res,
    convert 0 1 "Part" "E" "New" [ex_data; ex_master] = (Ok r, σ')
    ∧ convert 0 1 "Part" "E" "New" σ' = (Ok r', σ'')
    ∧ σ'' !! r = Some res ∧ σ'' !! r' = Some res ∧ r ≠ r'.
Proof.
  destruct (conversion_repeatable [ex_data; ex_master] 0 1 ex_data ex_master
              "Part" "E" "New" eq_refl eq_refl) as [H _].
  assert (∃ r σ' res,
            convert 0 1 "Part" "E" "New" [ex_data; ex_master] = (Ok r, σ')
            ∧ σ' !! r = Some res) as (r & σ' & res & Hrun & Hres)
    by (eexists _, _, _; split; vm_compute; reflexivity).
  destruct (H r σ' res Hrun Hres) as (r' & σ'' & Hrun' & Hres' & Hold & Hne).
  exists r, σ', r', σ'', res. repeat (split; [assumption|]). exact Hne.
Defined.

Lemma blank_keys_match_witness :
  valid_inputs ex_data_blank ex_master_blank "Part" "E" "New"
  ∧ ∃ res, converts [ex_data_blank; ex_master_blank] 0 1 "Part" "E" "New" res
      ∧ column "Part" res !! 0%nat = Some (CText "nan")
      ∧ column new_col_name res !! 0%nat = Some (CText "XB").
Proof.
  assert (valid_inputs ex_data_blank ex_master_blank "Part" "E" "New") as Hv
    by by_evaluation.
  split; [exact Hv|].
  apply (blank_keys_match [ex_data_blank; ex_master_blank] 0 1 ex_data_blank
           ex_master_blank "Part" "E" "New" 0 [CMissing]
           [[CText "A1"; CText "X1"]] [CMissing; CText "XB"] []);
    first [reflexivity | exact Hv | by_evaluation].
Defined.

Lemma result_keys_normalized_witness :
  valid_inputs ex_data ex_master "Part" "E" "New"
  ∧ ∃ res, converts [ex_data; ex_master] 0 1 "Part" "E" "New" res
      ∧ normalize_key <$> column "Part" res = column "Part" res.
Proof.
  assert (valid_inputs ex_data ex_master "Part" "E" "New") as Hv
    by by_evaluation.
  split; [exact Hv|].
  exact (proj2 (result_keys_normalized [ex_data; ex_master] 0 1 ex_data
                  ex_master "Part" "E" "New" eq_refl eq_refl Hv)).
Defined.

Lemma other_master_columns_irrelevant_witness :
  valid_inputs ex_data_upper ex_master "Part" "E" "New"
  ∧ valid_inputs ex_data_upper ex_master_wide "Part" "E" "New"
  ∧ ∃ res,
      converts [ex_data_upper; ex_master] 0 1 "Part" "E" "New" res
      ∧ converts [ex_data_upper; ex_master_wide] 0 1 "Part" "E" "New" res.
Proof.
  assert (valid_inputs ex_data_upper ex_master "Part" "E" "New") as Hv1
    by by_evaluation.
  assert (valid_inputs ex_data_upper ex_master_wide "Part" "E" "New") as Hv2
    by by_evaluation.
  split; [exact Hv1|]. split; [exact Hv2|].
  apply (other_master_columns_irrelevant [ex_data_upper; ex_master]
           [ex_data_upper; ex_master_wide] 0 1 1 ex_data_upper ex_master
           ex_master_wide "Part" "E" "New");
    first [reflexivity | assumption].
Defined.

Lemma equal_keys_equal_outputs_witness :
  valid_inputs ex_data_twice ex_master "Part" "E" "New"
  ∧ ∃ res, converts [ex_data_twice; ex_master] 0 1 "Part" "E" "New" res
      ∧ column new_col_name res !! 0%nat = column new_col_name res !! 1%nat.
Proof.
  assert (valid_inputs ex_data_twice ex_master "Part" "E" "New") as Hv
    by by_evaluation.
  split; [exact Hv|].
  destruct (equal_keys_equal_outputs [ex_data_twice; ex_master] 0 1
              ex_data_twice ex_master "Part" "E" "New" 0 1
              [CText "A1"] [CText " A1"] eq_refl eq_refl Hv eq_refl eq_refl
              eq_refl) as (res & Hres & _ & Heq).
  exists res. split; [exact Hres|exact Heq].
Defined.

Lemma later_duplicate_irrelevant_witness :
  valid_inputs ex_data_upper ex_master "Part" "E" "New"
  ∧ ∃ res,
      converts [ex_data_upper; ex_master] 0 1 "Part" "E" "New" res
      ∧ converts [ex_data_upper; ex_master_dedup] 0 1 "Part" "E" "New" res.
Proof.
  assert (valid_inputs ex_data_upper ex_master "Part" "E" "New") as Hv
    by by_evaluation.
  split; [exact Hv|].
  apply (later_duplicate_irrelevant [ex_data_upper; ex_master]
           [ex_data_upper; ex_master_dedup] 0 1 1 ex_data_upper ex_master
           ex_master_dedup "Part" "E" "New"
           [] [CText "A1"; CText "X1"] [] [CText "A1"; CText "X2"]
           [[CText "B2"; CText "Y1"]]);
    first [reflexivity | assumption].
Defined.

Lemma default_prefers_label_witness :
  "E Number" ∈ ["Description"; "E Number"]
  ∧ default_selection "E Number" 0 ["Description"; "E Number"]
    = Ok (Some "E Number").
Proof.
  assert ("E Number" ∈ ["Description"; "E Number"]) as Hin by by_evaluation.
  split; [exact Hin|].
  exact (default_prefers_label "E Number" 0 ["Description"; "E Number"] Hin).
Defined.

Lemma default_columns_collide_witness :
  NoDup (columns ex_master_200_first)
  ∧ ("E Number" ∉ columns ex_master_200_first)
  ∧ ∃ c, master_e_col_default (columns ex_master_200_first) = Ok (Some c)
      ∧ new_part_col_default (columns ex_master_200_first) = Ok (Some c).
Proof.
  assert (NoDup (columns ex_master_200_first)) as Hnd by by_evaluation.
  assert ("E Number" ∉ columns ex_master_200_first) as Hn by by_evaluation.
  split; [exact Hnd|]. split; [exact Hn|].
  destruct (default_columns_collide [ex_data; ex_master_200_first] 0 1 ex_data
              ex_master_200_first "Part" eq_refl eq_refl Hnd)
    as (c & H1 & H2 & _).
  - left. split; [exact Hn|]. by eexists.
  - exists c. split; [exact H1|exact H2].
Defined.

Lemma standard_headers_convert_witness :
  wf ex_data_std ∧ wf ex_master_std
  ∧ converts [ex_data_std; ex_master_std] 0 1 "PART/ E #" "E Number" "200 Number"
      (converted ex_data_std ex_master_std "PART/ E #" "E Number" "200 Number").
Proof.
  assert (wf ex_data_std) as HwU by by_evaluation.
  assert (wf ex_master_std) as HwM by by_evaluation.
  split; [exact HwU|]. split; [exact HwM|].
  destruct (standard_headers_convert [ex_data_std; ex_master_std] 0 1
              ex_data_std ex_master_std eq_refl eq_refl HwU HwM)
    as (_ & _ & _ & H); first [exact H | by_evaluation].
Defined.
